(** * gitcommiter: the editor-side controller of [src/extension.ts]

    A shallow embedding of the VS Code extension's controller: the
    command [generateCommitMessage], the process wrapper
    [runPythonScript], and the pieces of the JavaScript runtime they
    rely on (string search, [JSON.parse], promise settlement).

    Conventions.
    - A JavaScript string is a sequence of UTF-16 code units
      ([jsstring := list N]).
    - [JSON.parse] is a lexer and a pushdown parser over code units,
      both a single structural pass (no fuel); [None] is the
      [SyntaxError] it throws.
    - The child process and the cancellation token are a list of events
      delivered to the handlers [runPythonScript] registers.  A promise
      settles once; [await] delivers events until it does.
    - Effects are an explicit, chronological log ([list effect]) carried
      by a small writer-and-exception monad.
    - A parsed value is read through the declared interface
      [CommitResult]; a value outside it ends the model ([Untyped]).
    - Configured numbers are abstract: the controller only tests them
      for truthiness and prints them, so a number type with these two
      operations is a parameter.  [path.join] is a parameter too. *)

From Stdlib Require Import List ZArith NArith String Ascii Bool Lia.
From Stdlib Require Import DecimalString.
Import ListNotations.

Set Implicit Arguments.
Set Warnings "-register-all".

(** ** JavaScript strings *)

Module JS.

Definition code_unit := N.
Definition jsstring := list code_unit.

(** An ASCII literal as a JavaScript string. *)
Definition js (s : string) : jsstring :=
  map N_of_ascii (list_ascii_of_string s).

(** The same, with every apostrophe of the literal standing for a
    double quote (code unit 34). *)
Definition jsq (s : string) : jsstring :=
  map (fun c => if N.eqb c 39 then 34%N else c) (js s).

Fixpoint jsstring_eqb (a b : jsstring) : bool :=
  match a, b with
  | [], [] => true
  | x :: a', y :: b' => N.eqb x y && jsstring_eqb a' b'
  | _, _ => false
  end.

(** [s.startsWith(pat)]. *)
Fixpoint startsWith (pat s : jsstring) : bool :=
  match pat, s with
  | [], _ => true
  | _ :: _, [] => false
  | p :: pat', c :: s' => N.eqb p c && startsWith pat' s'
  end.

(** [s.includes(pat)]: [pat] occurs at some position of [s]. *)
Fixpoint includes (pat s : jsstring) : bool :=
  startsWith pat s ||
  match s with
  | [] => false
  | _ :: s' => includes pat s'
  end.

(** [s.lastIndexOf(pat)], scanning left to right from index [i] and
    remembering the last position where [pat] was seen. *)
Fixpoint lastIndexOf_from (pat s : jsstring) (i found : Z) : Z :=
  let found' := if startsWith pat s then i else found in
  match s with
  | [] => found'
  | _ :: s' => lastIndexOf_from pat s' (i + 1) found'
  end.

Definition lastIndexOf (pat s : jsstring) : Z :=
  lastIndexOf_from pat s 0 (-1).

(** [s.substring(start)]: a negative start counts as 0, a start past
    the end gives the empty string. *)
Definition substring (start : Z) (s : jsstring) : jsstring :=
  skipn (Z.to_nat (Z.max 0 start)) s.

(** Decimal rendering of an integer, as a template literal prints an
    integral number. *)
Definition Z_toString (z : Z) : jsstring :=
  js (NilZero.string_of_int (Z.to_int z)).

(** Truthiness of a string: the empty string is falsy. *)
Definition truthy (s : jsstring) : bool :=
  match s with [] => false | _ :: _ => true end.

(** [x || d] for an optional string ([undefined] and [""] are falsy). *)
Definition or_default (x : option jsstring) (d : jsstring) : jsstring :=
  match x with
  | Some s => if truthy s then s else d
  | None => d
  end.

End JS.
Import JS.

(** ** JSON.parse *)

Module JSON.

(** A parsed JSON value.  A number is kept as its lexeme: the
    controller never computes with one. *)
Inductive json :=
| JNull
| JBool (b : bool)
| JNumber (lexeme : jsstring)
| JString (s : jsstring)
| JArray (elements : list json)
| JObject (members : list (jsstring * json)).

Inductive token :=
| TLBrace | TRBrace | TLBracket | TRBracket | TColon | TComma
| TString (s : jsstring)
| TNumber (lexeme : jsstring)
| TTrue | TFalse | TNull.

Definition is_whitespace (c : N) : bool :=
  N.eqb c 32 || N.eqb c 9 || N.eqb c 10 || N.eqb c 13.

Definition is_digit (c : N) : bool := N.leb 48 c && N.leb c 57.

Definition is_letter (c : N) : bool := N.leb 97 c && N.leb c 122.

(** Characters that can continue a number lexeme. *)
Definition is_number_char (c : N) : bool :=
  is_digit c || N.eqb c 43 || N.eqb c 45 || N.eqb c 46
  || N.eqb c 101 || N.eqb c 69.

Definition hex_value (c : N) : option N :=
  if is_digit c then Some (c - 48)%N
  else if N.leb 97 c && N.leb c 102 then Some (c - 87)%N
  else if N.leb 65 c && N.leb c 70 then Some (c - 55)%N
  else None.

(** The number grammar: an optional minus sign; an integer part that is
    either a single 0 or a non-zero digit followed by digits; an optional
    fraction (a dot and at least one digit); an optional exponent (e or
    E, an optional sign, at least one digit). *)
Fixpoint skip_digits (s : jsstring) : jsstring :=
  match s with
  | c :: s' => if is_digit c then skip_digits s' else s
  | [] => []
  end.

Definition digits1 (s : jsstring) : option jsstring :=
  match s with
  | c :: s' => if is_digit c then Some (skip_digits s') else None
  | [] => None
  end.

Definition int_part (s : jsstring) : option jsstring :=
  match s with
  | c :: s' =>
      if N.eqb c 48 then Some s'
      else if is_digit c then Some (skip_digits s')
      else None
  | [] => None
  end.

Definition frac_part (s : jsstring) : option jsstring :=
  match s with
  | c :: s' => if N.eqb c 46 then digits1 s' else Some s
  | [] => Some s
  end.

Definition exp_part (s : jsstring) : option jsstring :=
  match s with
  | c :: s' =>
      if N.eqb c 101 || N.eqb c 69 then
        match s' with
        | d :: s'' => if N.eqb d 43 || N.eqb d 45 then digits1 s'' else digits1 s'
        | [] => None
        end
      else Some s
  | [] => Some s
  end.

Definition is_number (lexeme : jsstring) : bool :=
  let unsigned :=
    match lexeme with
    | c :: s' => if N.eqb c 45 then s' else lexeme
    | [] => lexeme
    end in
  match int_part unsigned with
  | Some r1 =>
      match frac_part r1 with
      | Some r2 =>
          match exp_part r2 with
          | Some [] => true
          | _ => false
          end
      | None => false
      end
  | None => false
  end.

(** *** Lexer: one pass over the code units *)

Inductive lex_mode :=
| LDefault
| LString (acc : jsstring)                     (* inside a string; [acc] reversed *)
| LEscape (acc : jsstring)                     (* after a backslash *)
| LUnicode (acc : jsstring) (hex : list N)     (* after [\u]; digits reversed *)
| LNumber (acc : jsstring)
| LWord (acc : jsstring).

Definition lex_state := (lex_mode * list token)%type.

Definition lex_default (c : N) (out : list token) : option lex_state :=
  if is_whitespace c then Some (LDefault, out)
  else if N.eqb c 123 then Some (LDefault, TLBrace :: out)
  else if N.eqb c 125 then Some (LDefault, TRBrace :: out)
  else if N.eqb c 91 then Some (LDefault, TLBracket :: out)
  else if N.eqb c 93 then Some (LDefault, TRBracket :: out)
  else if N.eqb c 58 then Some (LDefault, TColon :: out)
  else if N.eqb c 44 then Some (LDefault, TComma :: out)
  else if N.eqb c 34 then Some (LString [], out)
  else if N.eqb c 45 || is_digit c then Some (LNumber [c], out)
  else if is_letter c then Some (LWord [c], out)
  else None.

Definition escape_char (c : N) : option N :=
  if N.eqb c 34 then Some 34%N
  else if N.eqb c 92 then Some 92%N
  else if N.eqb c 47 then Some 47%N
  else if N.eqb c 98 then Some 8%N
  else if N.eqb c 102 then Some 12%N
  else if N.eqb c 110 then Some 10%N
  else if N.eqb c 114 then Some 13%N
  else if N.eqb c 116 then Some 9%N
  else None.

Definition word_token (w : jsstring) : option token :=
  if jsstring_eqb w (js "true") then Some TTrue
  else if jsstring_eqb w (js "false") then Some TFalse
  else if jsstring_eqb w (js "null") then Some TNull
  else None.

Definition number_token (lexeme : jsstring) : option token :=
  if is_number lexeme then Some (TNumber lexeme) else None.

Definition lex_step (st : lex_state) (c : N) : option lex_state :=
  let '(mode, out) := st in
  match mode with
  | LDefault => lex_default c out
  | LString acc =>
      if N.eqb c 34 then Some (LDefault, TString (rev acc) :: out)
      else if N.eqb c 92 then Some (LEscape acc, out)
      else if N.ltb c 32 then None
      else Some (LString (c :: acc), out)
  | LEscape acc =>
      if N.eqb c 117 then Some (LUnicode acc [], out)
      else match escape_char c with
           | Some e => Some (LString (e :: acc), out)
           | None => None
           end
  | LUnicode acc hex =>
      match hex_value c with
      | Some d =>
          match hex with
          | [d2; d1; d0] =>
              Some (LString ((d0 * 4096 + d1 * 256 + d2 * 16 + d)%N :: acc), out)
          | _ => Some (LUnicode acc (d :: hex), out)
          end
      | None => None
      end
  | LNumber acc =>
      if is_number_char c then Some (LNumber (c :: acc), out)
      else match number_token (rev acc) with
           | Some t => lex_default c (t :: out)
           | None => None
           end
  | LWord acc =>
      if is_letter c then Some (LWord (c :: acc), out)
      else match word_token (rev acc) with
           | Some t => lex_default c (t :: out)
           | None => None
           end
  end.

Definition lex_finish (st : lex_state) : option (list token) :=
  let '(mode, out) := st in
  match mode with
  | LDefault => Some (rev out)
  | LNumber acc =>
      match number_token (rev acc) with
      | Some t => Some (rev (t :: out))
      | None => None
      end
  | LWord acc =>
      match word_token (rev acc) with
      | Some t => Some (rev (t :: out))
      | None => None
      end
  | LString _ | LEscape _ | LUnicode _ _ => None
  end.

Fixpoint lex_run (st : lex_state) (s : jsstring) : option (list token) :=
  match s with
  | [] => lex_finish st
  | c :: s' =>
      match lex_step st c with
      | Some st' => lex_run st' s'
      | None => None
      end
  end.

Definition lex (s : jsstring) : option (list token) := lex_run (LDefault, []) s.

(** *** Parser: a pushdown automaton over the tokens *)

Inductive frame :=
| FArray (elements : list json)                          (* reversed *)
| FObject (members : list (jsstring * json)) (key : jsstring).

Inductive parse_mode :=
| PValue (stack : list frame)            (* a value must follow *)
| PArrayFirst (stack : list frame)       (* after "[": a value or "]" *)
| PArrayNext (elements : list json) (stack : list frame)      (* "," or "]" *)
| PObjectFirst (stack : list frame)      (* after "{": a key or "}" *)
| PObjectKey (members : list (jsstring * json)) (stack : list frame)
| PObjectColon (members : list (jsstring * json)) (key : jsstring) (stack : list frame)
| PObjectNext (members : list (jsstring * json)) (stack : list frame)  (* "," or "}" *)
| PDone (v : json).

(** A value [v] is complete: hand it to the enclosing frame. *)
Definition complete (v : json) (stack : list frame) : parse_mode :=
  match stack with
  | [] => PDone v
  | FArray elements :: stack' => PArrayNext (v :: elements) stack'
  | FObject members key :: stack' => PObjectNext ((key, v) :: members) stack'
  end.

Definition parse_value (t : token) (stack : list frame) : option parse_mode :=
  match t with
  | TLBrace => Some (PObjectFirst stack)
  | TLBracket => Some (PArrayFirst stack)
  | TString s => Some (complete (JString s) stack)
  | TNumber n => Some (complete (JNumber n) stack)
  | TTrue => Some (complete (JBool true) stack)
  | TFalse => Some (complete (JBool false) stack)
  | TNull => Some (complete JNull stack)
  | TRBrace | TRBracket | TColon | TComma => None
  end.

Definition parse_step (m : parse_mode) (t : token) : option parse_mode :=
  match m with
  | PValue stack => parse_value t stack
  | PArrayFirst stack =>
      match t with
      | TRBracket => Some (complete (JArray []) stack)
      | _ => parse_value t (FArray [] :: stack)
      end
  | PArrayNext elements stack =>
      match t with
      | TComma => Some (PValue (FArray elements :: stack))
      | TRBracket => Some (complete (JArray (rev elements)) stack)
      | _ => None
      end
  | PObjectFirst stack =>
      match t with
      | TRBrace => Some (complete (JObject []) stack)
      | TString key => Some (PObjectColon [] key stack)
      | _ => None
      end
  | PObjectKey members stack =>
      match t with
      | TString key => Some (PObjectColon members key stack)
      | _ => None
      end
  | PObjectColon members key stack =>
      match t with
      | TColon => Some (PValue (FObject members key :: stack))
      | _ => None
      end
  | PObjectNext members stack =>
      match t with
      | TComma => Some (PObjectKey members stack)
      | TRBrace => Some (complete (JObject (rev members)) stack)
      | _ => None
      end
  | PDone _ => None
  end.

Fixpoint parse_run (m : parse_mode) (ts : list token) : option json :=
  match ts with
  | [] => match m with PDone v => Some v | _ => None end
  | t :: ts' =>
      match parse_step m t with
      | Some m' => parse_run m' ts'
      | None => None
      end
  end.

(** [JSON.parse(text)]: [None] stands for the [SyntaxError] it throws. *)
Definition parse (text : jsstring) : option json :=
  match lex text with
  | Some ts => parse_run (PValue []) ts
  | None => None
  end.

(** Property read [o.key] on a parsed object: the last member of that
    name wins, as [JSON.parse] overwrites earlier duplicates. *)
Fixpoint get (key : jsstring) (members : list (jsstring * json)) : option json :=
  match members with
  | [] => None
  | (k, v) :: rest =>
      match get key rest with
      | Some v' => Some v'
      | None => if jsstring_eqb k key then Some v else None
      end
  end.

End JSON.
Import JSON.


(** ** The result contract and the effects of the controller *)

(** [interface CommitResult] (extension.ts, lines 9-13). *)
Record CommitResult := {
  commit_message : option jsstring;
  success : bool;
  error : option jsstring
}.

(** An optional string field of a parsed object.  [undefined] (no such
    member) and [null] are both falsy and the controller only ever
    tests such a field before printing it, so both read as [None]. *)
Definition optional_string (v : option json) : option (option jsstring) :=
  match v with
  | None => Some None
  | Some JNull => Some None
  | Some (JString s) => Some (Some s)
  | Some _ => None
  end.

(** The typed reading of [const result: CommitResult = JSON.parse(..)]:
    [None] when the parsed value does not inhabit the interface (the
    cast is unchecked at run time; such values are outside the model). *)
Definition as_CommitResult (v : json) : option CommitResult :=
  match v with
  | JObject members =>
      match JSON.get (js "success") members,
            optional_string (JSON.get (js "commit_message") members),
            optional_string (JSON.get (js "error") members) with
      | Some (JBool b), Some m, Some e =>
          Some {| commit_message := m; success := b; error := e |}
      | _, _, _ => None
      end
  | _ => None
  end.

(** A thrown value: [new Error(message)], or anything else. *)
Inductive thrown :=
| Error (message : jsstring)
| NotAnError.

(** [error instanceof Error ? error.message : 'Unknown error']. *)
Definition error_message (e : thrown) : jsstring :=
  match e with
  | Error message => message
  | NotAnError => js "Unknown error"
  end.

Record WorkspaceFolder := { fsPath : jsstring }.

(** A repository of the git extension's API, named by its root. *)
Record Repository := { rootUri : jsstring }.

(** What the controller does to the outside world, in order. *)
Inductive effect :=
| showErrorMessage (message : jsstring) (items : list jsstring)
| showWarningMessage (message : jsstring)
| showInformationMessage (message : jsstring)
| executeCommand (command arg : jsstring)
| withProgress (title : jsstring) (cancellable : bool)
| progress_report (increment : Z) (message : jsstring)
| spawn (command : jsstring) (args : list jsstring)
| process_kill
| JSON_parse (text : jsstring)
| inputBox_value_set (repo : Repository) (value : jsstring)
| clipboard_writeText (value : jsstring)
| console_error (label : jsstring) (e : thrown).

Definition is_spawn (e : effect) : bool :=
  match e with spawn _ _ => true | _ => false end.

Definition is_JSON_parse (e : effect) : bool :=
  match e with JSON_parse _ => true | _ => false end.

Definition is_error_notice (e : effect) : bool :=
  match e with showErrorMessage _ _ => true | _ => false end.

Definition is_warning_notice (e : effect) : bool :=
  match e with showWarningMessage _ => true | _ => false end.

(** ** runPythonScript: the child process and its promise *)

(** What the child process and the cancellation token deliver to the
    handlers registered by [runPythonScript] (lines 200-231). *)
Inductive event :=
| cancellation_requested
| stdout_data (data : jsstring)
| stderr_data (data : jsstring)
| close (code : option Z)             (* [None]: the code is [null] *)
| spawn_error (message : jsstring).

Inductive settlement :=
| Resolved (value : json)
| Rejected (reason : thrown).

Record run := {
  stdout : jsstring;
  stderr : jsstring;
  promise : option settlement;
  isCancellationRequested : bool;
  log : list effect
}.

Definition initial_run : run :=
  {| stdout := []; stderr := []; promise := None;
     isCancellationRequested := false; log := [] |}.

(** [resolve] and [reject]: only the first call settles the promise. *)
Definition settle (s : settlement) (r : run) : run :=
  match promise r with
  | Some _ => r
  | None =>
      {| stdout := stdout r; stderr := stderr r; promise := Some s;
         isCancellationRequested := isCancellationRequested r; log := log r |}
  end.

Definition resolve (value : json) : run -> run := settle (Resolved value).
Definition reject (reason : thrown) : run -> run := settle (Rejected reason).

Definition perform (e : effect) (r : run) : run :=
  {| stdout := stdout r; stderr := stderr r; promise := promise r;
     isCancellationRequested := isCancellationRequested r;
     log := log r ++ [e] |}.

(** [`${code}`] for an exit code. *)
Definition code_toString (code : option Z) : jsstring :=
  match code with
  | Some n => Z_toString n
  | None => js "null"
  end.

(** Lines 200-203. *)
Definition on_cancellation (r : run) : run :=
  let r1 :=
    {| stdout := stdout r; stderr := stderr r; promise := promise r;
       isCancellationRequested := true; log := log r |} in
  reject (Error (js "Operation was cancelled")) (perform process_kill r1).

(** Lines 205-211. *)
Definition on_stdout (data : jsstring) (r : run) : run :=
  {| stdout := stdout r ++ data; stderr := stderr r; promise := promise r;
     isCancellationRequested := isCancellationRequested r; log := log r |}.

Definition on_stderr (data : jsstring) (r : run) : run :=
  {| stdout := stdout r; stderr := stderr r ++ data; promise := promise r;
     isCancellationRequested := isCancellationRequested r; log := log r |}.

(** Lines 213-227. *)
Definition on_close (code : option Z) (r : run) : run :=
  match code with
  | Some 0%Z =>
      let jsonStart := lastIndexOf (js "{") (stdout r) in
      let jsonPart := substring jsonStart (stdout r) in
      let r1 := perform (JSON_parse jsonPart) r in
      match JSON.parse jsonPart with
      | Some result => resolve result r1
      | None =>
          reject (Error (js "Failed to parse Python script output: " ++ stdout r)) r1
      end
  | _ =>
      reject (Error (js "Python script failed with code " ++ code_toString code
                       ++ js ": " ++ stderr r)) r
  end.

(** Lines 229-231. *)
Definition on_error (message : jsstring) (r : run) : run :=
  reject (Error (js "Failed to start Python script: " ++ message)) r.

Definition handle (e : event) (r : run) : run :=
  match e with
  | cancellation_requested => on_cancellation r
  | stdout_data data => on_stdout data r
  | stderr_data data => on_stderr data r
  | close code => on_close code r
  | spawn_error message => on_error message r
  end.

(** Deliver events until the promise settles: the awaiting code resumes
    right after the settling handler returns, before any later event. *)
Fixpoint await (r : run) (events : list event) : run :=
  match promise r with
  | Some _ => r
  | None =>
      match events with
      | [] => r
      | e :: events' => await (handle e r) events'
      end
  end.

(** Deliver every event, settled or not. *)
Definition deliver (r : run) (events : list event) : run :=
  fold_left (fun r e => handle e r) events r.

(** *** Vocabulary for process runs *)

Definition is_data (e : event) : bool :=
  match e with
  | stdout_data _ | stderr_data _ => true
  | _ => false
  end.

(** The events carry output only: no cancellation, no exit, no spawn
    error. *)
Definition data_only (events : list event) : bool := forallb is_data events.

Fixpoint captured_stdout (events : list event) : jsstring :=
  match events with
  | [] => []
  | stdout_data data :: rest => data ++ captured_stdout rest
  | _ :: rest => captured_stdout rest
  end.

Fixpoint captured_stderr (events : list event) : jsstring :=
  match events with
  | [] => []
  | stderr_data data :: rest => data ++ captured_stderr rest
  | _ :: rest => captured_stderr rest
  end.

(** Lines 217-218: the text handed to [JSON.parse]. *)
Definition jsonPart (out : jsstring) : jsstring :=
  substring (lastIndexOf (js "{") out) out.

(** ** A small monad: an effect log and the way a computation ends *)

Inductive completion (A : Type) :=
| Normal (a : A)
| Throw (e : thrown)
| Suspended                (* awaits a promise that never settles *)
| Untyped.                 (* a value outside its declared type flowed in *)

Arguments Normal {A} a.
Arguments Throw {A} e.
Arguments Suspended {A}.
Arguments Untyped {A}.

Definition M (A : Type) : Type := (list effect * completion A)%type.

Definition ret {A} (a : A) : M A := ([], Normal a).

Definition bind {A B} (m : M A) (k : A -> M B) : M B :=
  match m with
  | (l, Normal a) => let '(l', c) := k a in (l ++ l', c)
  | (l, Throw e) => (l, Throw e)
  | (l, Suspended) => (l, Suspended)
  | (l, Untyped) => (l, Untyped)
  end.

Definition emit (e : effect) : M unit := ([e], Normal tt).

Definition try_catch {A} (m : M A) (handler : thrown -> M A) : M A :=
  match m with
  | (l, Throw e) => let '(l', c) := handler e in (l ++ l', c)
  | _ => m
  end.

Declare Scope controller_scope.
Delimit Scope controller_scope with controller.
Notation "x <- m ;; k" := (bind m (fun x => k))
  (at level 61, m at next level, right associativity) : controller_scope.
Notation "m ;; k" := (bind m (fun _ => k))
  (at level 61, right associativity) : controller_scope.
Local Open Scope controller_scope.

Definition effects {A} (m : M A) : list effect := fst m.
Definition outcome {A} (m : M A) : completion A := snd m.

(** [runPythonScript(pythonPath, args, token)], awaited: the process
    is spawned, its events are delivered, and the promise's settlement
    (with the token's flag at that moment) is what the caller sees. *)
Definition runPythonScript (pythonPath : jsstring) (args : list jsstring)
    (events : list event) : M (json * bool) :=
  let r := await initial_run events in
  (spawn pythonPath args :: log r,
   match promise r with
   | Some (Resolved result) => Normal (result, isCancellationRequested r)
   | Some (Rejected reason) => Throw reason
   | None => Suspended
   end).

(** ** generateCommitMessage *)

Section Controller.

(** JavaScript numbers, as far as the controller uses them. *)
Variable number : Type.
Variable number_truthy : number -> bool.          (* ToBoolean *)
Variable number_toString : number -> jsstring.    (* Number.prototype.toString *)

(** The number literals of the source: [0.3] and [100]. *)
Variables num_0_3 num_100 : number.

(** Node's [path.join]. *)
Variable path_join : list jsstring -> jsstring.

(** The settings under [autoCommitMessages]; [None] is [undefined]. *)
Record WorkspaceConfiguration := {
  googleApiKey : option jsstring;
  pythonPath : option jsstring;
  model : option jsstring;
  temperature : option number;
  maxTokens : option number
}.

(** [x || d] for an optional number. *)
Definition or_default_number (x : option number) (d : number) : number :=
  match x with
  | Some n => if number_truthy n then n else d
  | None => d
  end.

(** Everything an invocation reads from outside. *)
Record Environment := {
  workspaceFolders : option (list WorkspaceFolder);
  configuration : WorkspaceConfiguration;
  extensionPath : jsstring;
  (** [git.repositories], or [None] when the git API is not there. *)
  git : option (list Repository);
  (** The button the user picks on the missing-key notice, if any. *)
  picked_item : option jsstring;
  (** What the child process and the token deliver. *)
  process_events : list event
}.

(** [!apiKey] is false: the key is a non-empty string. *)
Definition present (apiKey : option jsstring) : option jsstring :=
  match apiKey with
  | Some k => if truthy k then Some k else None
  | None => None
  end.

(** Lines 137-145. *)
Definition build_args (scriptPath : jsstring) (workspaceFolder : WorkspaceFolder)
    (apiKey : jsstring) (config : WorkspaceConfiguration) : list jsstring :=
  [ scriptPath;
    fsPath workspaceFolder;
    js "--api-key"; apiKey;
    js "--model"; or_default (model config) (js "gemini-1.5-flash");
    js "--temperature"; number_toString (or_default_number (temperature config) num_0_3);
    js "--max-tokens"; number_toString (or_default_number (maxTokens config) num_100);
    js "--json" ].

(** The command and the arguments the generator is launched with
    (lines 134-145). *)
Definition spawn_command (env : Environment) : jsstring :=
  or_default (pythonPath (configuration env)) (js "python").

Definition spawn_args (env : Environment) (workspaceFolder : WorkspaceFolder)
    (apiKey : jsstring) : list jsstring :=
  build_args (path_join [extensionPath env; js "py"; js "commit_generator.py"])
             workspaceFolder apiKey (configuration env).

(** The progress notification and its reports (lines 129-158). *)
Definition progress_opened : effect :=
  withProgress (js "Generating commit message with AI...") true.
Definition analyzing : effect := progress_report 20 (js "Analyzing git changes...").
Definition processing : effect := progress_report 60 (js "Processing AI response...").
Definition applying : effect := progress_report 20 (js "Applying commit message...").

Definition quoted (s : jsstring) : jsstring := [34%N] ++ s ++ [34%N].

(** Lines 157-174: the success side effect. *)
Definition apply_commit_message (env : Environment) (message : jsstring) : M unit :=
  emit applying ;;
  match git env with
  | Some (repo :: _) =>
      emit (inputBox_value_set repo message) ;;
      emit (showInformationMessage (js "Generated: " ++ quoted message))
  | _ =>
      emit (clipboard_writeText message) ;;
      emit (showInformationMessage
              (js "Generated (copied to clipboard): " ++ quoted message))
  end.

(** Lines 175-182: the failure side effect. *)
Definition report_failure (result : CommitResult) : M unit :=
  let errorMessage := or_default (error result) (js "Failed to generate commit message") in
  if includes (js "No changes detected") errorMessage then
    emit (showWarningMessage (js "No changes detected to generate commit message."))
  else
    emit (showErrorMessage (js "Error: " ++ errorMessage) []).

(** Lines 157-182: the parsed value is read as a [CommitResult] and
    routed to one of the two side effects. *)
Definition after_run (env : Environment) (value : json) : M unit :=
  match as_CommitResult value with
  | None => ([], Untyped)
  | Some result =>
      match success result, present (commit_message result) with
      | true, Some message => apply_commit_message env message
      | _, _ => report_failure result
      end
  end.

(** Lines 133-183: the task run under the progress notification. *)
Definition progress_task (env : Environment) (workspaceFolder : WorkspaceFolder)
    (apiKey : jsstring) : M unit :=
  let config := configuration env in
  let pythonPath := or_default (pythonPath config) (js "python") in
  let scriptPath := path_join [extensionPath env; js "py"; js "commit_generator.py"] in
  let args := build_args scriptPath workspaceFolder apiKey config in
  emit analyzing ;;
  settled <- runPythonScript pythonPath args (process_events env) ;;
  let '(value, cancelled) := settled in
  if cancelled then ret tt
  else
    emit processing ;;
    after_run env value.

(** Lines 107-191. *)
Definition generateCommitMessage (env : Environment) : M unit :=
  try_catch
    (match workspaceFolders env with
     | Some (workspaceFolder :: _) =>
         match present (googleApiKey (configuration env)) with
         | None =>
             emit (showErrorMessage
                     (js "Google AI API Key is not configured. Please set it in settings.")
                     [js "Open Settings"]) ;;
             match picked_item env with
             | Some item =>
                 if jsstring_eqb item (js "Open Settings") then
                   emit (executeCommand (js "workbench.action.openSettings")
                           (js "autoCommitMessages.googleApiKey"))
                 else ret tt
             | None => ret tt
             end
         | Some apiKey =>
             emit progress_opened ;;
             progress_task env workspaceFolder apiKey
         end
     | _ =>
         emit (showErrorMessage (js "No workspace folder found. Please open a project.") [])
     end)
    (fun error =>
       emit (console_error (js "Error in generateCommitMessage:") error) ;;
       emit (showErrorMessage
               (js "Failed to generate commit message: " ++ error_message error) [])).

End Controller.

(** ** A concrete instance of the number interface

    The controller only tests a configured number for truthiness and
    prints it.  This instance names a number by its canonical decimal
    rendering; it serves to run the controller on concrete settings. *)

Module CanonicalNumber.

Definition number := jsstring.

(** [0], [-0] (printed as 0) and [NaN] are the falsy numbers. *)
Definition truthy (n : number) : bool :=
  negb (jsstring_eqb n (js "0") || jsstring_eqb n (js "NaN")).

Definition toString (n : number) : jsstring := n.

(** [path.join] on a POSIX host, for segments that need no
    normalisation. *)
Fixpoint path_join (segments : list jsstring) : jsstring :=
  match segments with
  | [] => js "."
  | [s] => s
  | s :: rest => s ++ js "/" ++ path_join rest
  end.

End CanonicalNumber.


(** ** Concrete settings, environments and outputs *)

Module Examples.

Definition generate :=
  generateCommitMessage CanonicalNumber.truthy CanonicalNumber.toString
    (js "0.3") (js "100") CanonicalNumber.path_join.

(** Settings with a key, an empty interpreter path, no model, and both
    numbers set to 0. *)
Definition settings : WorkspaceConfiguration CanonicalNumber.number :=
  {| googleApiKey := Some (js "secret-key");
     pythonPath := Some [];
     model := None;
     temperature := Some (js "0");
     maxTokens := Some (js "0") |}.

Definition settings_without_key : WorkspaceConfiguration CanonicalNumber.number :=
  {| googleApiKey := None;
     pythonPath := Some (js "python3");
     model := Some (js "gemini-1.5-pro");
     temperature := Some (js "0.7");
     maxTokens := Some (js "64") |}.

Definition folder : WorkspaceFolder := {| fsPath := js "/home/dev/project" |}.

Definition repository : Repository := {| rootUri := js "/home/dev/project" |}.

Definition environment (repositories : option (list Repository))
    (events : list event) : Environment CanonicalNumber.number :=
  {| workspaceFolders := Some [folder];
     configuration := settings;
     extensionPath := js "/ext";
     git := repositories;
     picked_item := None;
     process_events := events |}.

Definition environment_without_key : Environment CanonicalNumber.number :=
  {| workspaceFolders := Some [folder];
     configuration := settings_without_key;
     extensionPath := js "/ext";
     git := Some [repository];
     picked_item := Some (js "Open Settings");
     process_events := [stdout_data (jsq "{'success': true}"); close (Some 0%Z)] |}.

(** The launch these settings lead to. *)
Definition launched : effect :=
  spawn (js "python")
    [ js "/ext/py/commit_generator.py"; js "/home/dev/project";
      js "--api-key"; js "secret-key";
      js "--model"; js "gemini-1.5-flash";
      js "--temperature"; js "0.3";
      js "--max-tokens"; js "100";
      js "--json" ].

(** The example of the specification: a log line, a line feed, the
    JSON object. *)
Definition output_after_log : jsstring :=
  js "Cloning..." ++ [10%N]
  ++ jsq "{'success': true, 'commit_message': 'feat: add parser'}".

(** A well-formed Result whose commit message holds an opening brace. *)
Definition output_with_brace : jsstring :=
  jsq "{'success': true, 'commit_message': 'fix: escape { in templates'}".

Definition output_no_changes : jsstring :=
  jsq "{'success': false, 'error': 'No changes detected in repository'}".

(** Success is claimed, no message is given, an error text is. *)
Definition output_success_with_error : jsstring :=
  jsq "{'success': true, 'error': 'quota exceeded'}".

Definition output_success_only : jsstring := jsq "{'success': true}".

(** The values these outputs parse to, and their typed readings. *)
Definition parsed_after_log : json :=
  JObject [(js "success", JBool true);
           (js "commit_message", JString (js "feat: add parser"))].

Definition result_after_log : CommitResult :=
  {| commit_message := Some (js "feat: add parser"); success := true; error := None |}.

Definition parsed_no_changes : json :=
  JObject [(js "success", JBool false);
           (js "error", JString (js "No changes detected in repository"))].

Definition result_no_changes : CommitResult :=
  {| commit_message := None; success := false;
     error := Some (js "No changes detected in repository") |}.

Definition parsed_success_with_error : json :=
  JObject [(js "success", JBool true); (js "error", JString (js "quota exceeded"))].

Definition result_success_with_error : CommitResult :=
  {| commit_message := None; success := true; error := Some (js "quota exceeded") |}.

Definition parsed_success_only : json := JObject [(js "success", JBool true)].

Definition result_success_only : CommitResult :=
  {| commit_message := None; success := true; error := None |}.

End Examples.

(** ** Outputs as a generator prints them *)

(** The code units a JSON string literal holds verbatim: no double
    quote, no backslash, no control character. *)
Definition plain_char (c : N) : bool :=
  negb (N.eqb c 34) && negb (N.eqb c 92) && N.leb 32 c.

Definition plain (s : jsstring) : bool := forallb plain_char s.

(** A success Result and a failure Result, printed on one line. *)
Definition printed_success (message : jsstring) : jsstring :=
  jsq "{'success': true, 'commit_message': '" ++ message ++ jsq "'}".

Definition printed_failure (text : jsstring) : jsstring :=
  jsq "{'success': false, 'error': '" ++ text ++ jsq "'}".

(** The lexer's state after a prefix of the text. *)
Fixpoint lex_prefix (st : lex_state) (s : jsstring) : option lex_state :=
  match s with
  | [] => Some st
  | c :: s' =>
      match lex_step st c with
      | Some st' => lex_prefix st' s'
      | None => None
      end
  end.

(** The lexer is outside a string literal. *)
Definition outside_string (st : lex_state) : bool :=
  match fst st with
  | LDefault | LNumber _ | LWord _ => true
  | LString _ | LEscape _ | LUnicode _ _ => false
  end.

(** The notices among the effects, and the launches. *)
Definition is_notice (e : effect) : bool :=
  match e with
  | showErrorMessage _ _ | showWarningMessage _ | showInformationMessage _ => true
  | _ => false
  end.

Definition launches (l : list effect) : list effect := filter is_spawn l.

(** ** The preflight: checkPythonSetup, setupPythonEnvironment, activate *)

(** What an awaited [execAsync(command)] gives: the promisified [exec]
    resolves with the two captured streams, or rejects. *)
Inductive exec_outcome :=
| exec_ok (out err : jsstring)
| exec_failed (error : thrown).

(** The shell, as the outcomes of the successive [execAsync] calls; a
    call past the end of the list never settles. *)
Definition shell := list exec_outcome.

(** What the preflight does, in order: the controller's effects and
    those only the preflight has. *)
Inductive action :=
| ui (e : effect)
| exec (command : jsstring)
| console_log (args : list jsstring)
| showWarningMessage_items (message : jsstring) (items : list jsstring)
| registerCommand (command : jsstring)
| subscriptions_push (commands : list jsstring).

(** A log, the shell that is left, and the way the computation ends. *)
Definition P (A : Type) : Type := shell -> (list action * shell * completion A)%type.

Definition P_ret {A} (a : A) : P A := fun sh => ([], sh, Normal a).

Definition P_bind {A B} (m : P A) (k : A -> P B) : P B := fun sh =>
  match m sh with
  | (l, sh', Normal a) => let '(l', sh'', c) := k a sh' in (l ++ l', sh'', c)
  | (l, sh', Throw e) => (l, sh', Throw e)
  | (l, sh', Suspended) => (l, sh', Suspended)
  | (l, sh', Untyped) => (l, sh', Untyped)
  end.

Definition act (a : action) : P unit := fun sh => ([a], sh, Normal tt).

Definition throw {A} (e : thrown) : P A := fun sh => ([], sh, Throw e).

Definition P_try_catch {A} (m : P A) (handler : thrown -> P A) : P A := fun sh =>
  match m sh with
  | (l, sh', Throw e) => let '(l', sh'', c) := handler e sh' in (l ++ l', sh'', c)
  | r => r
  end.

(** A call whose promise is dropped: its effects happen, its end is
    nobody's business. *)
Definition detached {A} (m : P A) : P unit := fun sh =>
  let '(l, sh', _) := m sh in (l, sh', Normal tt).

Definition execAsync (command : jsstring) : P (jsstring * jsstring) := fun sh =>
  match sh with
  | [] => ([exec command], [], Suspended)
  | exec_ok out err :: sh' => ([exec command], sh', Normal (out, err))
  | exec_failed error :: sh' => ([exec command], sh', Throw error)
  end.

Definition actions {A} (r : list action * shell * completion A) : list action :=
  fst (fst r).
Definition remaining {A} (r : list action * shell * completion A) : shell :=
  snd (fst r).
Definition ending {A} (r : list action * shell * completion A) : completion A :=
  snd r.

(** The shell commands among the actions, and the notices. *)
Fixpoint executed (l : list action) : list jsstring :=
  match l with
  | [] => []
  | exec command :: l' => command :: executed l'
  | _ :: l' => executed l'
  end.

Definition is_prompt (a : action) : bool :=
  match a with
  | ui e => is_notice e
  | showWarningMessage_items _ _ => true
  | _ => false
  end.

Definition prompts (l : list action) : list action := filter is_prompt l.

Declare Scope preflight_scope.
Delimit Scope preflight_scope with preflight.
Notation "x <- m ;; k" := (P_bind m (fun x => k))
  (at level 61, m at next level, right associativity) : preflight_scope.
Notation "m ;; k" := (P_bind m (fun _ => k))
  (at level 61, right associativity) : preflight_scope.

(** The buttons the user picks on the two prompts of the preflight,
    if any. *)
Record Choices := {
  dependencies_choice : option jsstring;
  unavailable_choice : option jsstring
}.

Section Preflight.

Local Open Scope preflight_scope.

Variable number : Type.
Variable path_join : list jsstring -> jsstring.

(** [config.get<string>('pythonPath') || 'python'] (lines 35 and 73). *)
Definition configured_python (env : Environment number) : jsstring :=
  or_default (pythonPath (configuration env)) (js "python").

(** The five command lines (lines 39, 47, 84, 91 and 96). *)
Definition interpreter_probe (python : jsstring) : jsstring :=
  python ++ js " -c " ++ quoted (js "import sys; print(sys.version)").

Definition dependency_probe (python : jsstring) : jsstring :=
  python ++ js " -c " ++ quoted (js "import langgraph, google.generativeai").

Definition version_command (python : jsstring) : jsstring :=
  python ++ js " --version".

Definition install_command (python requirementsPath : jsstring) : jsstring :=
  python ++ js " -m pip install -r " ++ quoted requirementsPath.

Definition verify_command (python : jsstring) : jsstring :=
  python ++ js " -c "
  ++ quoted (js "import langgraph, google.generativeai; print('All packages installed successfully')").

(** The commands of a setup, in the order they are run. *)
Definition setup_commands (env : Environment number) : list jsstring :=
  [ version_command (configured_python env);
    install_command (configured_python env)
      (path_join [extensionPath env; js "py"; js "requirements.txt"]);
    verify_command (configured_python env) ].

(** Lines 71-105. *)
Definition setupPythonEnvironment (env : Environment number) : P unit :=
  let pythonPath := configured_python env in
  act (ui (withProgress (js "Setting up Python environment...") false)) ;;
  P_try_catch
    (act (ui (progress_report 20 (js "Checking Python..."))) ;;
     version <- execAsync (version_command pythonPath) ;;
     act (console_log [js "Python version:"; fst version]) ;;
     act (ui (progress_report 30 (js "Installing dependencies..."))) ;;
     let requirementsPath := path_join [extensionPath env; js "py"; js "requirements.txt"] in
     execAsync (install_command pythonPath requirementsPath) ;;
     act (ui (progress_report 50 (js "Verifying installation..."))) ;;
     execAsync (verify_command pythonPath) ;;
     act (ui (showInformationMessage
                (js "Python environment setup completed successfully!"))))
    (fun error =>
       act (ui (console_error (js "Setup error:") error)) ;;
       act (ui (showErrorMessage
                  (js "Failed to setup Python environment: " ++ error_message error) []))).

(** [result === item] for the button a prompt resolved to. *)
Definition picked (choice : option jsstring) (item : jsstring) : bool :=
  match choice with
  | Some c => jsstring_eqb c item
  | None => false
  end.

(** Lines 33-69. *)
Definition checkPythonSetup (env : Environment number) (user : Choices) : P unit :=
  let pythonPath := configured_python env in
  P_try_catch
    (probe <- execAsync (interpreter_probe pythonPath) ;;
     if truthy (snd probe) then throw (Error (js "Python not found or not working"))
     else
       P_try_catch
         (execAsync (dependency_probe pythonPath) ;; P_ret tt)
         (fun _ =>
            act (showWarningMessage_items
                   (js "Python dependencies are not installed. Would you like to install them now?")
                   [js "Install Dependencies"; js "Not Now"]) ;;
            if picked (dependencies_choice user) (js "Install Dependencies")
            then setupPythonEnvironment env
            else P_ret tt))
    (fun _ =>
       act (ui (showErrorMessage
                  (js "Python is not available. Please install Python and configure the path in settings.")
                  [js "Open Settings"])) ;;
       if picked (unavailable_choice user) (js "Open Settings")
       then act (ui (executeCommand (js "workbench.action.openSettings")
                       (js "autoCommitMessages.pythonPath")))
       else P_ret tt).

(** Lines 15-31. *)
Definition activate (env : Environment number) (user : Choices) : P unit :=
  act (console_log [js "Auto Commit Messages (Python) extension is now active"]) ;;
  act (registerCommand (js "autoCommitMessages.generate")) ;;
  act (registerCommand (js "autoCommitMessages.setup")) ;;
  act (subscriptions_push [js "autoCommitMessages.generate"; js "autoCommitMessages.setup"]) ;;
  detached (checkPythonSetup env user).

(** Lines 235-237. *)
Definition deactivate : P unit :=
  act (console_log [js "Auto Commit Messages (Python) extension is now deactivated"]).

End Preflight.

(** How a run of [n] commands against a shell goes: all succeed, the
    command after [k] successes fails, or, after [k] successes, one
    never settles. *)
Inductive commands_run :=
| all_succeeded (rest : shell)
| failed_after (k : nat) (error : thrown) (rest : shell)
| unsettled_after (k : nat).

Fixpoint run_commands (n : nat) (sh : shell) : commands_run :=
  match n with
  | O => all_succeeded sh
  | S n' =>
      match sh with
      | [] => unsettled_after 0
      | exec_failed error :: sh' => failed_after 0 error sh'
      | exec_ok _ _ :: sh' =>
          match run_commands n' sh' with
          | all_succeeded rest => all_succeeded rest
          | failed_after k error rest => failed_after (S k) error rest
          | unsettled_after k => unsettled_after (S k)
          end
      end
  end.

(** Concrete users and shells for the preflight. *)
Module PreflightExamples.

Definition check :=
  @checkPythonSetup CanonicalNumber.number CanonicalNumber.path_join.

Definition environment : Environment CanonicalNumber.number :=
  Examples.environment None [].

(** A user who accepts what each prompt offers. *)
Definition agreeing_user : Choices :=
  {| dependencies_choice := Some (js "Install Dependencies");
     unavailable_choice := Some (js "Open Settings") |}.

(** An interpreter that answers the probe but warns on standard error. *)
Definition warning_interpreter : exec_outcome :=
  exec_ok (js "3.12.1") (js "DeprecationWarning: old option").

End PreflightExamples.

(** ** Properties of the string operations *)

Unset Implicit Arguments.

Section StringFacts.

Lemma startsWith_app (pat rest : jsstring) : startsWith pat (pat ++ rest) = true.
Proof.
  induction pat as [|p pat IH]; simpl.
  - reflexivity.
  - now rewrite N.eqb_refl, IH.
Qed.

Lemma startsWith_inv (pat s : jsstring) :
  startsWith pat s = true -> exists rest, s = pat ++ rest.
Proof.
  revert s; induction pat as [|p pat IH]; intros s H.
  - now exists s.
  - destruct s as [|c s]; simpl in H; [discriminate|].
    apply andb_true_iff in H as [Hc Hs].
    apply N.eqb_eq in Hc; subst c.
    destruct (IH _ Hs) as [rest ->].
    now exists rest.
Qed.

Lemma includes_startsWith (pat s : jsstring) :
  startsWith pat s = true -> includes pat s = true.
Proof.
  intros H; destruct s; simpl; rewrite H; reflexivity.
Qed.

(** [includes] is substring containment. *)
Lemma includes_spec (pat s : jsstring) :
  includes pat s = true <-> exists before after, s = before ++ pat ++ after.
Proof.
  split.
  - induction s as [|c s IH]; simpl; intros H.
    + rewrite orb_false_r in H.
      destruct (startsWith_inv _ _ H) as [rest ->].
      now exists [], rest.
    + apply orb_true_iff in H as [H|H].
      * destruct (startsWith_inv _ _ H) as [rest Hrest].
        exists [], rest. exact Hrest.
      * destruct (IH H) as (before & after & ->).
        now exists (c :: before), after.
  - intros (before & after & ->).
    induction before as [|b before IH]; simpl.
    + apply includes_startsWith, startsWith_app.
    + rewrite IH. apply orb_true_r.
Qed.

Lemma startsWith_single (c : N) (s : jsstring) :
  startsWith [c] s = match s with x :: _ => N.eqb c x | [] => false end.
Proof.
  destruct s as [|x s]; simpl; [reflexivity|apply andb_true_r].
Qed.

Lemma lastIndexOf_from_absent (c : N) (s : jsstring) (i found : Z) :
  ~ In c s -> lastIndexOf_from [c] s i found = found.
Proof.
  revert i found; induction s as [|x s IH]; intros i found Hc.
  - reflexivity.
  - cbn [lastIndexOf_from]. rewrite startsWith_single.
    destruct (N.eqb_spec c x) as [->|_].
    + exfalso; apply Hc; now left.
    + apply IH. intros Hin; apply Hc; now right.
Qed.

Lemma lastIndexOf_from_last (c : N) (pre rest : jsstring) (i found : Z) :
  ~ In c rest ->
  lastIndexOf_from [c] (pre ++ c :: rest) i found = (i + Z.of_nat (List.length pre))%Z.
Proof.
  intros Hc; revert i found; induction pre as [|x pre IH]; intros i found.
  - cbn [app lastIndexOf_from List.length]. rewrite startsWith_single, N.eqb_refl.
    rewrite lastIndexOf_from_absent by assumption. simpl; lia.
  - cbn [app lastIndexOf_from]. rewrite IH. cbn [List.length]. lia.
Qed.

Lemma substring_length_app (pre s : jsstring) :
  substring (Z.of_nat (List.length pre)) (pre ++ s) = s.
Proof.
  unfold substring. rewrite Z.max_r by lia. rewrite Nat2Z.id.
  induction pre; simpl; auto.
Qed.

(** When the text from some opening brace on holds no further opening
    brace, the controller's extraction returns exactly that text. *)
Lemma jsonPart_last_brace (pre rest : jsstring) :
  ~ In 123%N rest -> jsonPart (pre ++ 123%N :: rest) = 123%N :: rest.
Proof.
  intros H. unfold jsonPart, lastIndexOf.
  change (js "{") with [123%N].
  rewrite lastIndexOf_from_last by assumption.
  apply substring_length_app.
Qed.

(** Without any opening brace the whole output is handed to the parser. *)
Lemma jsonPart_no_brace (out : jsstring) :
  ~ In 123%N out -> jsonPart out = out.
Proof.
  intros H. unfold jsonPart, lastIndexOf.
  change (js "{") with [123%N].
  now rewrite lastIndexOf_from_absent.
Qed.

End StringFacts.

(** ** Properties of process runs *)

Section RunFacts.

Lemma await_settled (r : run) (events : list event) :
  promise r <> None -> await r events = r.
Proof.
  intros H; destruct events; simpl; destruct (promise r); congruence.
Qed.

(** Output events only accumulate the two captured streams. *)
Lemma await_data (data rest : list event) : forall r,
  promise r = None -> data_only data = true ->
  await r (data ++ rest) =
  await {| stdout := stdout r ++ captured_stdout data;
           stderr := stderr r ++ captured_stderr data;
           promise := None;
           isCancellationRequested := isCancellationRequested r;
           log := log r |} rest.
Proof.
  induction data as [|e data IH]; intros r Hp Hd.
  - destruct r; simpl in *; subst. now rewrite !app_nil_r.
  - cbn [data_only forallb] in Hd. apply andb_true_iff in Hd as [He Hd].
    cbn [app await]. rewrite Hp.
    destruct e; try discriminate He; rewrite IH by (auto; reflexivity);
      cbn [handle on_stdout on_stderr stdout stderr isCancellationRequested log
           captured_stdout captured_stderr]; now rewrite <- app_assoc.
Qed.

Lemma await_initial_data (data rest : list event) :
  data_only data = true ->
  await initial_run (data ++ rest) =
  await {| stdout := captured_stdout data; stderr := captured_stderr data;
           promise := None; isCancellationRequested := false; log := [] |} rest.
Proof.
  intros Hd. now rewrite await_data.
Qed.

(** A run that exits with status zero: one parse attempt, on the text
    from the last opening brace. *)
Lemma run_exit_zero (pythonPath : jsstring) (args : list jsstring)
    (data later : list event) :
  data_only data = true ->
  runPythonScript pythonPath args (data ++ close (Some 0%Z) :: later) =
  ([spawn pythonPath args; JSON_parse (jsonPart (captured_stdout data))],
   match JSON.parse (jsonPart (captured_stdout data)) with
   | Some result => Normal (result, false)
   | None =>
       Throw (Error (js "Failed to parse Python script output: "
                       ++ captured_stdout data))
   end).
Proof.
  intros Hd. unfold runPythonScript. rewrite await_initial_data by assumption.
  cbn [await promise handle on_close stdout].
  fold (jsonPart (captured_stdout data)).
  destruct (JSON.parse (jsonPart (captured_stdout data))) as [v|];
    cbn; rewrite await_settled by (cbn; discriminate); reflexivity.
Qed.

(** A run that exits with any other status (or with none). *)
Lemma run_exit_nonzero (pythonPath : jsstring) (args : list jsstring)
    (data later : list event) (code : option Z) :
  data_only data = true -> code <> Some 0%Z ->
  runPythonScript pythonPath args (data ++ close code :: later) =
  ([spawn pythonPath args],
   Throw (Error (js "Python script failed with code " ++ code_toString code
                   ++ js ": " ++ captured_stderr data))).
Proof.
  intros Hd Hc. unfold runPythonScript. rewrite await_initial_data by assumption.
  cbn [await promise handle].
  assert (E : forall r, on_close code r =
            reject (Error (js "Python script failed with code " ++ code_toString code
                             ++ js ": " ++ stderr r)) r).
  { intros r. unfold on_close. destruct code as [[| |]|]; congruence. }
  rewrite E. cbn. rewrite await_settled by (cbn; discriminate). reflexivity.
Qed.

(** A run cancelled before the process exits. *)
Lemma run_cancelled (pythonPath : jsstring) (args : list jsstring)
    (data later : list event) :
  data_only data = true ->
  runPythonScript pythonPath args (data ++ cancellation_requested :: later) =
  ([spawn pythonPath args; process_kill],
   Throw (Error (js "Operation was cancelled"))).
Proof.
  intros Hd. unfold runPythonScript. rewrite await_initial_data by assumption.
  cbn [await promise handle]. cbn.
  rewrite await_settled by (cbn; discriminate). reflexivity.
Qed.

Lemma log_settle (s : settlement) (r : run) : log (settle s r) = log r.
Proof. unfold settle; destruct (promise r); reflexivity. Qed.

(** The handlers never launch anything: whatever they add to the log
    is a kill or a parse. *)
Lemma handle_log (e : event) (r : run) :
  exists extra, log (handle e r) = log r ++ extra /\ existsb is_spawn extra = false.
Proof.
  destruct e as [|data|data|code|message]; cbn [handle].
  - exists [process_kill]. unfold on_cancellation, reject.
    now rewrite log_settle.
  - exists []. cbn. now rewrite app_nil_r.
  - exists []. cbn. now rewrite app_nil_r.
  - unfold on_close.
    destruct code as [[| |]|]; unfold resolve, reject;
      try (exists []; rewrite log_settle, app_nil_r; split; reflexivity).
    exists [JSON_parse (substring (lastIndexOf (js "{") (stdout r)) (stdout r))].
    destruct (JSON.parse _); unfold resolve, reject; rewrite log_settle;
      split; reflexivity.
  - exists []. unfold on_error, reject. now rewrite log_settle, app_nil_r.
Qed.

Lemma await_log_no_spawn (events : list event) : forall r,
  existsb is_spawn (log r) = false ->
  existsb is_spawn (log (await r events)) = false.
Proof.
  induction events as [|e events IH]; intros r Hr; cbn [await];
    destruct (promise r); auto.
  apply IH. destruct (handle_log e r) as (extra & -> & Hx).
  now rewrite existsb_app, Hr, Hx.
Qed.

(** A run launches exactly one process, first of all. *)
Lemma run_spawns_once (pythonPath : jsstring) (args : list jsstring)
    (events : list event) :
  exists rest,
    effects (runPythonScript pythonPath args events) = spawn pythonPath args :: rest
    /\ existsb is_spawn rest = false.
Proof.
  eexists; split; [reflexivity|]. now apply await_log_no_spawn.
Qed.

(** A promise that resolves was not cancelled: the handler of a
    cancellation rejects it first. *)
Lemma await_resolved_not_cancelled (events : list event) : forall r value,
  promise r = None -> isCancellationRequested r = false ->
  promise (await r events) = Some (Resolved value) ->
  isCancellationRequested (await r events) = false.
Proof.
  induction events as [|e events IH]; intros r value Hp Hc; cbn [await]; rewrite Hp.
  - congruence.
  - destruct e as [|data|data|code|message]; cbn [handle].
    + unfold on_cancellation, reject, settle, perform; cbn [promise]; rewrite Hp.
      rewrite await_settled by (cbn; discriminate). cbn. discriminate.
    + apply IH; assumption.
    + apply IH; assumption.
    + assert (Hs : promise (on_close code r) <> None
                   /\ isCancellationRequested (on_close code r) = false).
      { unfold on_close.
        destruct code as [[| |]|]; try destruct (JSON.parse _);
          unfold resolve, reject, settle, perform; cbn [promise]; rewrite Hp;
          cbn; (split; [discriminate|assumption]). }
      destruct Hs as [Hs1 Hs2]. rewrite await_settled by assumption. now intros _.
    + unfold on_error, reject, settle; rewrite Hp.
      rewrite await_settled by (cbn; discriminate). cbn. discriminate.
Qed.

Lemma handle_settled (e : event) (r : run) (s : settlement) :
  promise r = Some s -> promise (handle e r) = Some s.
Proof.
  intros Hp.
  assert (Hsettle : forall s' r', promise r' = Some s -> promise (settle s' r') = Some s).
  { intros s' r' H. unfold settle. now rewrite H. }
  destruct e as [|data|data|code|message]; cbn [handle].
  - apply Hsettle. exact Hp.
  - exact Hp.
  - exact Hp.
  - unfold on_close.
    destruct code as [[| |]|]; try destruct (JSON.parse _);
      apply Hsettle; exact Hp.
  - apply Hsettle. exact Hp.
Qed.

Lemma await_nil (r : run) : await r [] = r.
Proof. cbn [await]. destruct (promise r); reflexivity. Qed.

Lemma deliver_settled (events : list event) : forall r s,
  promise r = Some s -> promise (deliver r events) = Some s.
Proof.
  induction events as [|e events IH]; intros r s Hp; cbn [deliver fold_left].
  - exact Hp.
  - apply IH. apply handle_settled. exact Hp.
Qed.

(** X3. A promise settles once: delivering every event, also those that
    come after the settling one, leaves the promise as the awaiting
    code saw it.  A late exit after a cancellation, or a late
    cancellation after an exit, changes nothing. *)
Theorem first_settlement_wins (events : list event) : forall r,
  promise (deliver r events) = promise (await r events).
Proof.
  induction events as [|e events IH]; intros r.
  - now rewrite await_nil.
  - destruct (promise r) as [s|] eqn:Hp.
    + rewrite (deliver_settled (e :: events) r s Hp).
      rewrite await_settled by congruence. now rewrite Hp.
    + cbn [await]. rewrite Hp. apply IH.
Qed.

(** X1. When the captured output ends with a JSON text that starts at
    an opening brace and holds no other opening brace, whatever
    precedes it, exactly that text is parsed and the promise resolves
    to its value. *)
Theorem trailing_object_is_extracted (pythonPath : jsstring) (args : list jsstring)
    (data later : list event) (pre rest : jsstring) (value : json) :
  data_only data = true ->
  captured_stdout data = pre ++ 123%N :: rest ->
  ~ In 123%N rest ->
  JSON.parse (123%N :: rest) = Some value ->
  runPythonScript pythonPath args (data ++ close (Some 0%Z) :: later) =
    ([spawn pythonPath args; JSON_parse (123%N :: rest)], Normal (value, false)).
Proof.
  intros Hd Hout Hrest Hparse.
  rewrite run_exit_zero by assumption.
  now rewrite Hout, jsonPart_last_brace, Hparse.
Qed.

(** X2. The guard on [token.isCancellationRequested] after the awaited
    run (lines 151-153) is never taken: a run that resolves has not been
    cancelled, since the cancellation handler rejects the promise. *)
Theorem resolved_run_was_not_cancelled (pythonPath : jsstring) (args : list jsstring)
    (events : list event) (l : list effect) (value : json) (cancelled : bool) :
  runPythonScript pythonPath args events = (l, Normal (value, cancelled)) ->
  cancelled = false.
Proof.
  unfold runPythonScript. intros H.
  destruct (promise (await initial_run events)) as [[v|reason]|] eqn:Hp;
    inversion H; subst.
  now apply (await_resolved_not_cancelled events initial_run value).
Qed.

End RunFacts.

(** ** Properties of generateCommitMessage *)

Section ControllerFacts.

Variable number : Type.
Variable number_truthy : number -> bool.
Variable number_toString : number -> jsstring.
Variables num_0 num_0_3 num_100 : number.
Variable path_join : list jsstring -> jsstring.

(** Facts of ECMAScript about the three number literals involved. *)
Hypothesis num_0_falsy : number_truthy num_0 = false.
Hypothesis num_0_3_toString : number_toString num_0_3 = js "0.3".
Hypothesis num_100_toString : number_toString num_100 = js "100".

Local Abbreviation generate :=
  (generateCommitMessage number_truthy number_toString num_0_3 num_100 path_join).
Local Abbreviation command := (@spawn_command number).
Local Abbreviation arguments :=
  (spawn_args number_truthy number_toString num_0_3 num_100 path_join).
Local Abbreviation Env := (Environment number).
Local Abbreviation route := (@after_run number).

Lemma present_some (k : jsstring) : k <> [] -> present (Some k) = Some k.
Proof. destruct k; [congruence|reflexivity]. Qed.

Lemma present_none (x : option jsstring) :
  x = None \/ x = Some [] -> present x = None.
Proof. intros [->| ->]; reflexivity. Qed.

Lemma present_inv (x : option jsstring) (k : jsstring) :
  present x = Some k -> x = Some k /\ k <> [].
Proof.
  destruct x as [[|c s]|]; simpl; intros H; inversion H; subst.
  split; [reflexivity|discriminate].
Qed.

(** Both side effects end normally. *)
Lemma apply_commit_message_normal (env : Env) (message : jsstring) :
  outcome (apply_commit_message env message) = Normal tt.
Proof.
  unfold apply_commit_message. destruct (git env) as [[|repo repos]|]; reflexivity.
Qed.

Lemma report_failure_normal (result : CommitResult) :
  outcome (report_failure result) = Normal tt.
Proof.
  unfold report_failure. destruct (includes _ _); reflexivity.
Qed.

(** With a workspace folder and a key, the command is the progress task
    under the generic handler: its effects and its end follow from how
    the run of the generator ends. *)
Lemma generate_with_key (env : Env) (wf : WorkspaceFolder)
    (wfs : list WorkspaceFolder) (key : jsstring) :
  workspaceFolders env = Some (wf :: wfs) ->
  googleApiKey (configuration env) = Some key -> key <> [] ->
  forall (l : list effect) (c : completion (json * bool)),
  runPythonScript (command env) (arguments env wf key) (process_events env) = (l, c) ->
  generate env =
  match c with
  | Normal (value, cancelled) =>
      if cancelled then (progress_opened :: analyzing :: l, Normal tt)
      else (progress_opened :: analyzing :: l ++ processing
              :: effects (route env value),
            outcome (route env value))
  | Throw reason =>
      (progress_opened :: analyzing :: l ++
         [console_error (js "Error in generateCommitMessage:") reason;
          showErrorMessage
            (js "Failed to generate commit message: " ++ error_message reason) []],
       Normal tt)
  | Suspended => (progress_opened :: analyzing :: l, Suspended)
  | Untyped => (progress_opened :: analyzing :: l, Untyped)
  end.
Proof.
  intros Hwf Hkey Hne l c Hrun.
  unfold generateCommitMessage. rewrite Hwf, Hkey, (present_some key Hne).
  unfold progress_task. unfold spawn_command, spawn_args in Hrun.
  cbn [bind emit]. rewrite Hrun.
  destruct c as [[value cancelled]| reason | |]; cbn [bind try_catch app];
    try reflexivity.
  destruct cancelled; cbn [ret bind try_catch app].
  - now rewrite app_nil_r.
  - assert (H : forall e, outcome (route env value) <> Throw e).
    { unfold after_run. destruct (as_CommitResult value) as [result|].
      - destruct (success result), (present (commit_message result));
          rewrite ?apply_commit_message_normal, ?report_failure_normal;
          intros; discriminate.
      - intros; discriminate. }
    destruct (after_run env value) as [l' c']; cbn [effects outcome fst snd] in *.
    destruct c'; try reflexivity. now elim (H e).
Qed.

(** The launch is the third effect of the command, and its only one. *)
Lemma generate_launch (env : Env) (wf : WorkspaceFolder)
    (wfs : list WorkspaceFolder) (key : jsstring) :
  workspaceFolders env = Some (wf :: wfs) ->
  googleApiKey (configuration env) = Some key -> key <> [] ->
  exists rest,
    effects (generate env) =
      progress_opened :: analyzing :: spawn (command env) (arguments env wf key) :: rest
    /\ existsb is_spawn rest = false.
Proof.
  intros Hwf Hkey Hne.
  destruct (runPythonScript (command env) (arguments env wf key) (process_events env))
    as [l c] eqn:Hrun.
  rewrite (generate_with_key env wf wfs key Hwf Hkey Hne l c Hrun).
  destruct (run_spawns_once (command env) (arguments env wf key) (process_events env))
    as (rest & Hl & Hrest).
  rewrite Hrun in Hl; cbn [effects fst] in Hl; subst l.
  assert (Hroute : forall value, existsb is_spawn (effects (route env value)) = false).
  { intros value. unfold after_run.
    destruct (as_CommitResult value) as [result|]; [|reflexivity].
    unfold apply_commit_message, report_failure.
    destruct (success result), (present (commit_message result));
      try destruct (git env) as [[|repo repos]|];
      try destruct (includes _ _); reflexivity. }
  destruct c as [[value cancelled]|reason| |]; try destruct cancelled;
    cbn [effects fst app]; eexists; (split; [reflexivity|]);
    rewrite ?existsb_app, ?Hrest; cbn [existsb is_spawn processing orb];
    rewrite ?Hroute; reflexivity.
Qed.

(** *** The command, case by case *)

(** C3. A process run that exits with a status other than zero never
    reaches [JSON.parse]: the run's log holds no parse, and the run is
    rejected with a text that carries the exit code and the whole
    captured standard error.  The close handler itself, in any state,
    does nothing but reject with that text, and adds nothing to the
    log. *)
Theorem nonzero_exit_fails_without_parsing (pythonPath : jsstring)
    (args : list jsstring) (data later : list event) (code : option Z) :
  data_only data = true -> code <> Some 0%Z ->
  let m := runPythonScript pythonPath args (data ++ close code :: later) in
  existsb is_JSON_parse (effects m) = false
  /\ outcome m =
       Throw (Error (js "Python script failed with code " ++ code_toString code
                       ++ js ": " ++ captured_stderr data))
  /\ forall r,
       on_close code r =
         reject (Error (js "Python script failed with code " ++ code_toString code
                          ++ js ": " ++ stderr r)) r
       /\ log (on_close code r) = log r.
Proof.
  intros Hd Hc m; subst m. rewrite run_exit_nonzero by assumption.
  split; [reflexivity|]. split; [reflexivity|].
  intros r.
  assert (E : on_close code r =
              reject (Error (js "Python script failed with code " ++ code_toString code
                               ++ js ": " ++ stderr r)) r).
  { unfold on_close. destruct code as [[| |]|]; congruence. }
  split; [exact E|]. rewrite E. apply log_settle.
Qed.

(** C7. A process run that exits with status zero but whose output does
    not parse under the extraction rule is rejected with an error that
    carries the captured output; that error differs from every error a
    non-zero exit produces, and it reaches the user as an error notice. *)
Theorem unparseable_output_is_a_distinct_error (env : Env) (wf : WorkspaceFolder)
    (wfs : list WorkspaceFolder) (key : jsstring) (data later : list event) :
  workspaceFolders env = Some (wf :: wfs) ->
  googleApiKey (configuration env) = Some key -> key <> [] ->
  process_events env = data ++ close (Some 0%Z) :: later ->
  data_only data = true ->
  JSON.parse (jsonPart (captured_stdout data)) = None ->
  let failure :=
    Error (js "Failed to parse Python script output: " ++ captured_stdout data) in
  outcome (runPythonScript (command env) (arguments env wf key) (process_events env))
    = Throw failure
  /\ (forall code err,
        failure <> Error (js "Python script failed with code " ++ code_toString code
                            ++ js ": " ++ err))
  /\ generate env =
       ([progress_opened; analyzing;
         spawn (command env) (arguments env wf key);
         JSON_parse (jsonPart (captured_stdout data));
         console_error (js "Error in generateCommitMessage:") failure;
         showErrorMessage
           (js "Failed to generate commit message: "
              ++ js "Failed to parse Python script output: " ++ captured_stdout data) []],
        Normal tt).
Proof.
  intros Hwf Hkey Hne Hev Hd Hparse failure.
  assert (Hrun := run_exit_zero (command env) (arguments env wf key) data later Hd).
  rewrite <- Hev, Hparse in Hrun.
  split; [now rewrite Hrun|]. split.
  - intros code err H. cbn in H. discriminate H.
  - now rewrite (generate_with_key env wf wfs key Hwf Hkey Hne _ _ Hrun).
Qed.

(** C2 (what the code does). When cancellation is requested before the
    process exits, the promise is rejected, the rejection reaches the
    generic handler of the command, and the user is shown an
    error-level notice. *)
Theorem cancellation_shows_an_error_notice (env : Env) (wf : WorkspaceFolder)
    (wfs : list WorkspaceFolder) (key : jsstring) (data later : list event) :
  workspaceFolders env = Some (wf :: wfs) ->
  googleApiKey (configuration env) = Some key -> key <> [] ->
  process_events env = data ++ cancellation_requested :: later ->
  data_only data = true ->
  generate env =
    ([progress_opened; analyzing;
      spawn (command env) (arguments env wf key);
      process_kill;
      console_error (js "Error in generateCommitMessage:")
        (Error (js "Operation was cancelled"));
      showErrorMessage
        (js "Failed to generate commit message: Operation was cancelled") []],
     Normal tt).
Proof.
  intros Hwf Hkey Hne Hev Hd.
  assert (Hrun := run_cancelled (command env) (arguments env wf key) data later Hd).
  rewrite <- Hev in Hrun.
  now rewrite (generate_with_key env wf wfs key Hwf Hkey Hne _ _ Hrun).
Qed.

(** C4. Without a configured API key (undefined or empty) the command
    ends after a notice to the user and launches no process. *)
Theorem missing_key_short_circuits (env : Env) :
  googleApiKey (configuration env) = None
  \/ googleApiKey (configuration env) = Some [] ->
  existsb is_spawn (effects (generate env)) = false
  /\ outcome (generate env) = Normal tt
  /\ match workspaceFolders env with
     | Some (_ :: _) =>
         exists rest,
           effects (generate env) =
             showErrorMessage
               (js "Google AI API Key is not configured. Please set it in settings.")
               [js "Open Settings"] :: rest
           /\ (rest = []
               \/ rest = [executeCommand (js "workbench.action.openSettings")
                            (js "autoCommitMessages.googleApiKey")])
     | _ =>
         effects (generate env) =
           [showErrorMessage (js "No workspace folder found. Please open a project.") []]
     end.
Proof.
  intros Hkey. apply present_none in Hkey.
  unfold generateCommitMessage. rewrite Hkey.
  destruct (workspaceFolders env) as [[|wf wfs]|]; try (repeat split; reflexivity).
  destruct (picked_item env) as [item|];
    [destruct (jsstring_eqb item (js "Open Settings"))|];
    (split; [reflexivity|split; [reflexivity|]]);
    eexists; (split; [reflexivity|]); auto.
Qed.

(** The effects of an invocation whose process exits with status zero
    and whose extracted text parses to a [CommitResult]. *)
Lemma generate_parsed (env : Env) (wf : WorkspaceFolder)
    (wfs : list WorkspaceFolder) (key : jsstring) (data later : list event)
    (value : json) (result : CommitResult) :
  workspaceFolders env = Some (wf :: wfs) ->
  googleApiKey (configuration env) = Some key -> key <> [] ->
  process_events env = data ++ close (Some 0%Z) :: later ->
  data_only data = true ->
  JSON.parse (jsonPart (captured_stdout data)) = Some value ->
  as_CommitResult value = Some result ->
  generate env =
    let routed :=
      match success result, present (commit_message result) with
      | true, Some message => apply_commit_message env message
      | _, _ => report_failure result
      end in
    ([progress_opened; analyzing;
      spawn (command env) (arguments env wf key);
      JSON_parse (jsonPart (captured_stdout data));
      processing] ++ effects routed,
     Normal tt).
Proof.
  intros Hwf Hkey Hne Hev Hd Hparse Hres.
  assert (Hrun := run_exit_zero (command env) (arguments env wf key) data later Hd).
  rewrite <- Hev, Hparse in Hrun.
  rewrite (generate_with_key env wf wfs key Hwf Hkey Hne _ _ Hrun).
  unfold after_run. rewrite Hres. cbn zeta. f_equal.
  destruct (success result), (present (commit_message result));
    now rewrite ?apply_commit_message_normal, ?report_failure_normal.
Qed.

(** C6. A successful Result (success true, a non-empty commit message)
    is written into the input box of the first repository when the git
    API is there and has one; otherwise it is copied to the clipboard
    and the notice says so. *)
Theorem success_fills_input_box_or_clipboard (env : Env) (wf : WorkspaceFolder)
    (wfs : list WorkspaceFolder) (key : jsstring) (data later : list event)
    (value : json) (result : CommitResult) (message : jsstring) :
  workspaceFolders env = Some (wf :: wfs) ->
  googleApiKey (configuration env) = Some key -> key <> [] ->
  process_events env = data ++ close (Some 0%Z) :: later ->
  data_only data = true ->
  JSON.parse (jsonPart (captured_stdout data)) = Some value ->
  as_CommitResult value = Some result ->
  success result = true ->
  commit_message result = Some message -> message <> [] ->
  generate env =
    ([progress_opened; analyzing;
      spawn (command env) (arguments env wf key);
      JSON_parse (jsonPart (captured_stdout data));
      processing; applying] ++
     match git env with
     | Some (repo :: _) =>
         [inputBox_value_set repo message;
          showInformationMessage (js "Generated: " ++ quoted message)]
     | _ =>
         [clipboard_writeText message;
          showInformationMessage
            (js "Generated (copied to clipboard): " ++ quoted message)]
     end,
     Normal tt).
Proof.
  intros Hwf Hkey Hne Hev Hd Hparse Hres Hs Hm Hmne.
  rewrite (generate_parsed env wf wfs key data later value result) by assumption.
  rewrite Hs, Hm, (present_some message Hmne). cbn zeta.
  unfold apply_commit_message.
  destruct (git env) as [[|repo repos]|]; reflexivity.
Qed.

(** C5, as amended.  A failure that arrives as a parsed Result (exit
    status zero; not a success with a message) is inspected: its error
    text, or the default text when the field is absent or empty, gives a
    warning when it contains "No changes detected" and otherwise an
    error notice carrying that text.  A failure by a non-zero exit is
    not inspected: it always gives an error notice, carrying the exit
    code and the captured standard error. *)
Theorem failure_notice_by_kind (env : Env) (wf : WorkspaceFolder)
    (wfs : list WorkspaceFolder) (key : jsstring) (data later : list event) :
  workspaceFolders env = Some (wf :: wfs) ->
  googleApiKey (configuration env) = Some key -> key <> [] ->
  data_only data = true ->
  (forall value result,
     process_events env = data ++ close (Some 0%Z) :: later ->
     JSON.parse (jsonPart (captured_stdout data)) = Some value ->
     as_CommitResult value = Some result ->
     success result = false \/ commit_message result = None
       \/ commit_message result = Some [] ->
     let errorMessage :=
       or_default (error result) (js "Failed to generate commit message") in
     generate env =
       ([progress_opened; analyzing;
         spawn (command env) (arguments env wf key);
         JSON_parse (jsonPart (captured_stdout data));
         processing;
         if includes (js "No changes detected") errorMessage
         then showWarningMessage (js "No changes detected to generate commit message.")
         else showErrorMessage (js "Error: " ++ errorMessage) []],
        Normal tt))
  /\ (forall code,
        process_events env = data ++ close code :: later ->
        code <> Some 0%Z ->
        let reason :=
          Error (js "Python script failed with code " ++ code_toString code
                   ++ js ": " ++ captured_stderr data) in
        generate env =
          ([progress_opened; analyzing;
            spawn (command env) (arguments env wf key);
            console_error (js "Error in generateCommitMessage:") reason;
            showErrorMessage
              (js "Failed to generate commit message: "
                 ++ js "Python script failed with code " ++ code_toString code
                 ++ js ": " ++ captured_stderr data) []],
           Normal tt)).
Proof.
  intros Hwf Hkey Hne Hd. split.
  - intros value result Hev Hparse Hres Hfail errorMessage.
    rewrite (generate_parsed env wf wfs key data later value result) by assumption.
    assert (E : match success result, present (commit_message result) with
                | true, Some message => apply_commit_message env message
                | _, _ => report_failure result
                end = report_failure result).
    { destruct Hfail as [-> | [-> | ->]]; [reflexivity| |];
        destruct (success result); reflexivity. }
    rewrite E. cbn zeta. unfold report_failure. fold errorMessage.
    destruct (includes (js "No changes detected") errorMessage); reflexivity.
  - intros code Hev Hcode reason.
    assert (Hrun := run_exit_nonzero (command env) (arguments env wf key)
                      data later code Hd Hcode).
    rewrite <- Hev in Hrun.
    now rewrite (generate_with_key env wf wfs key Hwf Hkey Hne _ _ Hrun).
Qed.

(** C9, as amended.  A Result that says success but has no commit
    message (absent or empty) takes the failure branch, never the
    success side effect.  The notice carries the default text when the
    Result has no error text either; when it has one, the notice is
    made from that text. *)
Theorem success_without_message_is_a_failure (env : Env) (wf : WorkspaceFolder)
    (wfs : list WorkspaceFolder) (key : jsstring) (data later : list event)
    (value : json) (result : CommitResult) :
  workspaceFolders env = Some (wf :: wfs) ->
  googleApiKey (configuration env) = Some key -> key <> [] ->
  process_events env = data ++ close (Some 0%Z) :: later ->
  data_only data = true ->
  JSON.parse (jsonPart (captured_stdout data)) = Some value ->
  as_CommitResult value = Some result ->
  success result = true ->
  commit_message result = None \/ commit_message result = Some [] ->
  outcome (generate env) = Normal tt
  /\ effects (generate env) =
       [progress_opened; analyzing;
        spawn (command env) (arguments env wf key);
        JSON_parse (jsonPart (captured_stdout data));
        processing] ++ effects (report_failure result)
  /\ (error result = None \/ error result = Some [] ->
      effects (report_failure result) =
        [showErrorMessage (js "Error: Failed to generate commit message") []])
  /\ (forall text, error result = Some text -> text <> [] ->
      effects (report_failure result) =
        [if includes (js "No changes detected") text
         then showWarningMessage (js "No changes detected to generate commit message.")
         else showErrorMessage (js "Error: " ++ text) []]).
Proof.
  intros Hwf Hkey Hne Hev Hd Hparse Hres Hs Hm.
  rewrite (generate_parsed env wf wfs key data later value result) by assumption.
  assert (E : present (commit_message result) = None) by now apply present_none.
  rewrite Hs, E. cbn zeta. cbn [effects outcome fst snd].
  repeat split.
  - intros [He|He]; unfold report_failure; rewrite He; reflexivity.
  - intros text He Hne'. unfold report_failure. rewrite He.
    destruct text as [|c text]; [congruence|]. cbn [or_default truthy].
    destruct (includes _ _); reflexivity.
Qed.

(** C8. The generator is launched with the script path, then the
    folder's path, then the named arguments for the key, the model, the
    temperature and the token limit, then [--json]. *)
Theorem generator_arguments (env : Env) (wf : WorkspaceFolder)
    (wfs : list WorkspaceFolder) (key : jsstring) :
  workspaceFolders env = Some (wf :: wfs) ->
  googleApiKey (configuration env) = Some key -> key <> [] ->
  exists rest,
    effects (generate env) =
      progress_opened :: analyzing ::
      spawn (or_default (pythonPath (configuration env)) (js "python"))
        [ path_join [extensionPath env; js "py"; js "commit_generator.py"];
          fsPath wf;
          js "--api-key"; key;
          js "--model"; or_default (model (configuration env)) (js "gemini-1.5-flash");
          js "--temperature";
          number_toString
            (or_default_number number_truthy (temperature (configuration env)) num_0_3);
          js "--max-tokens";
          number_toString
            (or_default_number number_truthy (maxTokens (configuration env)) num_100);
          js "--json" ] :: rest
    /\ existsb is_spawn rest = false.
Proof.
  intros Hwf Hkey Hne. exact (generate_launch env wf wfs key Hwf Hkey Hne).
Qed.

(** C10. A falsy setting is replaced by its default before the launch:
    an undefined or empty interpreter path becomes "python", an
    undefined or empty model the default model, a falsy temperature
    (0 included) is sent as "0.3" and a falsy token limit (0 included)
    as "100". *)
Theorem falsy_settings_use_defaults (env : Env) (wf : WorkspaceFolder)
    (wfs : list WorkspaceFolder) (key : jsstring) :
  workspaceFolders env = Some (wf :: wfs) ->
  googleApiKey (configuration env) = Some key -> key <> [] ->
  let config := configuration env in
  exists pythonPath_sent script model_sent temperature_sent maxTokens_sent rest,
    effects (generate env) =
      progress_opened :: analyzing ::
      spawn pythonPath_sent
        [ script; fsPath wf;
          js "--api-key"; key;
          js "--model"; model_sent;
          js "--temperature"; temperature_sent;
          js "--max-tokens"; maxTokens_sent;
          js "--json" ] :: rest
    /\ (pythonPath config = None \/ pythonPath config = Some [] ->
        pythonPath_sent = js "python")
    /\ (model config = None \/ model config = Some [] ->
        model_sent = js "gemini-1.5-flash")
    /\ (temperature config = None
        \/ (exists n, temperature config = Some n /\ number_truthy n = false) ->
        temperature_sent = js "0.3")
    /\ (maxTokens config = None
        \/ (exists n, maxTokens config = Some n /\ number_truthy n = false) ->
        maxTokens_sent = js "100")
    /\ (temperature config = Some num_0 -> temperature_sent = js "0.3")
    /\ (maxTokens config = Some num_0 -> maxTokens_sent = js "100").
Proof.
  intros Hwf Hkey Hne config.
  destruct (generate_launch env wf wfs key Hwf Hkey Hne) as (rest & Heff & _).
  unfold spawn_command, spawn_args, build_args in Heff. fold config in Heff.
  do 5 eexists. exists rest. split; [exact Heff|].
  fold config.
  assert (Ht : forall x, x = None \/ (exists n, x = Some n /\ number_truthy n = false) ->
               forall d, or_default_number number_truthy x d = d).
  { intros x [->|(n & -> & Hn)] d; cbn; [|rewrite Hn]; reflexivity. }
  repeat split.
  - intros [H|H]; rewrite H; reflexivity.
  - intros [H|H]; rewrite H; reflexivity.
  - intros H. now rewrite (Ht _ H).
  - intros H. now rewrite (Ht _ H).
  - intros H. rewrite (Ht (temperature config)); [assumption|].
    right; exists num_0; auto.
  - intros H. rewrite (Ht (maxTokens config)); [assumption|].
    right; exists num_0; auto.
Qed.

End ControllerFacts.

(** ** Concrete runs *)

Section ConcreteRuns.

Import Examples.

(** C3 at exit code 1 with a Python traceback line on standard error. *)
Lemma nonzero_exit_witness :
  let m := runPythonScript (js "python") []
             [stderr_data (js "ModuleNotFoundError"); close (Some 1%Z)] in
  existsb is_JSON_parse (effects m) = false
  /\ outcome m =
       Throw (Error (js "Python script failed with code 1: ModuleNotFoundError")).
Proof.
  destruct (nonzero_exit_fails_without_parsing (js "python") []
              [stderr_data (js "ModuleNotFoundError")] [] (Some 1%Z))
    as (Hlog & Hout & _); [reflexivity | discriminate |].
  split; [exact Hlog | exact Hout].
Defined.

(** C7 at an output that is not JSON at all. *)
Lemma unparseable_output_witness :
  generate (environment None [stdout_data (js "Traceback"); close (Some 0%Z)]) =
    ([progress_opened; analyzing; launched; JSON_parse (js "Traceback");
      console_error (js "Error in generateCommitMessage:")
        (Error (js "Failed to parse Python script output: Traceback"));
      showErrorMessage
        (js "Failed to generate commit message: Failed to parse Python script output: Traceback")
        []],
     Normal tt).
Proof.
  assert (Hkey : js "secret-key" <> []) by discriminate.
  exact (proj2 (proj2
    (unparseable_output_is_a_distinct_error
       CanonicalNumber.number CanonicalNumber.truthy CanonicalNumber.toString
       (js "0.3") (js "100") CanonicalNumber.path_join
       (environment None [stdout_data (js "Traceback"); close (Some 0%Z)])
       folder [] (js "secret-key") [stdout_data (js "Traceback")] []
       eq_refl eq_refl Hkey eq_refl eq_refl eq_refl))).
Defined.

(** C1 (what the code does).  The process prints one well-formed Result
    whose commit message holds an opening brace and exits with status
    zero.  The whole output parses to that Result, but the controller
    hands the text from the last opening brace on to the parser, which
    refuses it: the run is rejected and an error notice is shown. *)
Theorem brace_in_message_is_rejected :
  let env := environment (Some [repository])
               [stdout_data output_with_brace; close (Some 0%Z)] in
  (exists value,
     JSON.parse output_with_brace = Some value
     /\ as_CommitResult value =
          Some {| commit_message := Some (js "fix: escape { in templates");
                  success := true; error := None |})
  /\ jsonPart output_with_brace = jsq "{ in templates'}"
  /\ JSON.parse (jsonPart output_with_brace) = None
  /\ generate env =
       ([progress_opened; analyzing; launched;
         JSON_parse (jsq "{ in templates'}");
         console_error (js "Error in generateCommitMessage:")
           (Error (js "Failed to parse Python script output: " ++ output_with_brace));
         showErrorMessage
           (js "Failed to generate commit message: "
              ++ js "Failed to parse Python script output: " ++ output_with_brace) []],
        Normal tt).
Proof.
  cbv zeta. split; [eexists; split; vm_compute; reflexivity|].
  repeat split; vm_compute; reflexivity.
Qed.

(** C2 at a run cancelled after a first chunk of output. *)
Lemma cancellation_witness :
  generate (environment (Some [repository])
              [stdout_data (js "Analyzing"); cancellation_requested; close None]) =
    ([progress_opened; analyzing; launched; process_kill;
      console_error (js "Error in generateCommitMessage:")
        (Error (js "Operation was cancelled"));
      showErrorMessage
        (js "Failed to generate commit message: Operation was cancelled") []],
     Normal tt).
Proof.
  assert (Hkey : js "secret-key" <> []) by discriminate.
  exact (cancellation_shows_an_error_notice
           CanonicalNumber.number CanonicalNumber.truthy CanonicalNumber.toString
           (js "0.3") (js "100") CanonicalNumber.path_join
           (environment (Some [repository])
              [stdout_data (js "Analyzing"); cancellation_requested; close None])
           folder [] (js "secret-key") [stdout_data (js "Analyzing")] [close None]
           eq_refl eq_refl Hkey eq_refl eq_refl).
Defined.

(** C4 at settings without a key: a notice, the settings page the user
    asked for, and no process, although the events of one are at hand. *)
Lemma missing_key_witness :
  googleApiKey (configuration environment_without_key) = None
  /\ existsb is_spawn (effects (generate environment_without_key)) = false
  /\ outcome (generate environment_without_key) = Normal tt.
Proof.
  split; [reflexivity|].
  destruct (missing_key_short_circuits
              CanonicalNumber.number CanonicalNumber.truthy CanonicalNumber.toString
              (js "0.3") (js "100") CanonicalNumber.path_join
              environment_without_key (or_introl eq_refl)) as (Hspawn & Hout & _).
  split; [exact Hspawn | exact Hout].
Defined.

(** C6 at the example of the specification, with one repository and
    with none. *)
Lemma success_witness :
  generate (environment (Some [repository])
              [stdout_data output_after_log; close (Some 0%Z)]) =
    ([progress_opened; analyzing; launched;
      JSON_parse (jsq "{'success': true, 'commit_message': 'feat: add parser'}");
      processing; applying;
      inputBox_value_set repository (js "feat: add parser");
      showInformationMessage (js "Generated: " ++ quoted (js "feat: add parser"))],
     Normal tt)
  /\ generate (environment (Some [])
                 [stdout_data output_after_log; close (Some 0%Z)]) =
       ([progress_opened; analyzing; launched;
         JSON_parse (jsq "{'success': true, 'commit_message': 'feat: add parser'}");
         processing; applying;
         clipboard_writeText (js "feat: add parser");
         showInformationMessage
           (js "Generated (copied to clipboard): " ++ quoted (js "feat: add parser"))],
        Normal tt).
Proof.
  assert (Hkey : js "secret-key" <> []) by discriminate.
  assert (Hmessage : js "feat: add parser" <> []) by discriminate.
  split.
  - exact (success_fills_input_box_or_clipboard
             CanonicalNumber.number CanonicalNumber.truthy CanonicalNumber.toString
             (js "0.3") (js "100") CanonicalNumber.path_join
             (environment (Some [repository])
                [stdout_data output_after_log; close (Some 0%Z)])
             folder [] (js "secret-key") [stdout_data output_after_log] []
             parsed_after_log result_after_log (js "feat: add parser")
             eq_refl eq_refl Hkey eq_refl eq_refl eq_refl eq_refl eq_refl eq_refl
             Hmessage).
  - exact (success_fills_input_box_or_clipboard
             CanonicalNumber.number CanonicalNumber.truthy CanonicalNumber.toString
             (js "0.3") (js "100") CanonicalNumber.path_join
             (environment (Some [])
                [stdout_data output_after_log; close (Some 0%Z)])
             folder [] (js "secret-key") [stdout_data output_after_log] []
             parsed_after_log result_after_log (js "feat: add parser")
             eq_refl eq_refl Hkey eq_refl eq_refl eq_refl eq_refl eq_refl eq_refl
             Hmessage).
Defined.

(** C5 as stated fails: the process exits with status 1 and its
    standard error holds "No changes detected"; the failure's text
    contains the substring, yet the notice is of error severity and no
    warning is shown. *)
Lemma nonzero_exit_no_changes_counterexample :
  let env := environment (Some [repository])
               [stderr_data (js "No changes detected in repository");
                close (Some 1%Z)] in
  includes (js "No changes detected")
    (js "Python script failed with code 1: No changes detected in repository") = true
  /\ generate env =
       ([progress_opened; analyzing; launched;
         console_error (js "Error in generateCommitMessage:")
           (Error (js "Python script failed with code 1: No changes detected in repository"));
         showErrorMessage
           (js "Failed to generate commit message: Python script failed with code 1: No changes detected in repository")
           []],
        Normal tt)
  /\ existsb is_warning_notice (effects (generate env)) = false.
Proof.
  cbv zeta. repeat split; vm_compute; reflexivity.
Qed.

(** C5, amended, at a failure Result that names the substring (a
    warning) and at the non-zero exit above (an error). *)
Lemma failure_notice_witness :
  generate (environment (Some [repository])
              [stdout_data output_no_changes; close (Some 0%Z)]) =
    ([progress_opened; analyzing; launched; JSON_parse output_no_changes; processing;
      showWarningMessage (js "No changes detected to generate commit message.")],
     Normal tt)
  /\ generate (environment (Some [repository])
                 [stderr_data (js "ModuleNotFoundError"); close (Some 1%Z)]) =
       ([progress_opened; analyzing; launched;
         console_error (js "Error in generateCommitMessage:")
           (Error (js "Python script failed with code 1: ModuleNotFoundError"));
         showErrorMessage
           (js "Failed to generate commit message: Python script failed with code 1: ModuleNotFoundError")
           []],
        Normal tt).
Proof.
  assert (Hkey : js "secret-key" <> []) by discriminate.
  assert (Hcode : Some 1%Z <> Some 0%Z) by discriminate.
  split.
  - exact (proj1
      (failure_notice_by_kind
         CanonicalNumber.number CanonicalNumber.truthy CanonicalNumber.toString
         (js "0.3") (js "100") CanonicalNumber.path_join
         (environment (Some [repository])
            [stdout_data output_no_changes; close (Some 0%Z)])
         folder [] (js "secret-key") [stdout_data output_no_changes] []
         eq_refl eq_refl Hkey eq_refl)
      parsed_no_changes result_no_changes eq_refl eq_refl eq_refl (or_introl eq_refl)).
  - exact (proj2
      (failure_notice_by_kind
         CanonicalNumber.number CanonicalNumber.truthy CanonicalNumber.toString
         (js "0.3") (js "100") CanonicalNumber.path_join
         (environment (Some [repository])
            [stderr_data (js "ModuleNotFoundError"); close (Some 1%Z)])
         folder [] (js "secret-key") [stderr_data (js "ModuleNotFoundError")] []
         eq_refl eq_refl Hkey eq_refl)
      (Some 1%Z) eq_refl Hcode).
Defined.

(** C9 as stated fails: the Result says success, has no commit message
    and carries an error text; the notice is made from that text, not
    from the default text. *)
Lemma success_with_error_text_counterexample :
  let env := environment (Some [repository])
               [stdout_data output_success_with_error; close (Some 0%Z)] in
  JSON.parse (jsonPart output_success_with_error) = Some parsed_success_with_error
  /\ as_CommitResult parsed_success_with_error = Some result_success_with_error
  /\ generate env =
       ([progress_opened; analyzing; launched;
         JSON_parse output_success_with_error; processing;
         showErrorMessage (js "Error: quota exceeded") []],
        Normal tt)
  /\ existsb
       (fun e =>
          match e with
          | showErrorMessage message _ =>
              includes (js "Failed to generate commit message") message
          | _ => false
          end) (effects (generate env)) = false.
Proof.
  cbv zeta. repeat split; vm_compute; reflexivity.
Qed.

(** C9, amended, at a Result that only says success. *)
Lemma success_without_message_witness :
  effects (generate (environment (Some [repository])
                       [stdout_data output_success_only; close (Some 0%Z)])) =
    [progress_opened; analyzing; launched; JSON_parse output_success_only; processing;
     showErrorMessage (js "Error: Failed to generate commit message") []].
Proof.
  assert (Hkey : js "secret-key" <> []) by discriminate.
  destruct (success_without_message_is_a_failure
              CanonicalNumber.number CanonicalNumber.truthy CanonicalNumber.toString
              (js "0.3") (js "100") CanonicalNumber.path_join
              (environment (Some [repository])
                 [stdout_data output_success_only; close (Some 0%Z)])
              folder [] (js "secret-key") [stdout_data output_success_only] []
              parsed_success_only result_success_only
              eq_refl eq_refl Hkey eq_refl eq_refl eq_refl eq_refl eq_refl
              (or_introl eq_refl))
    as (_ & Heffects & Hdefault & _).
  unfold generate. rewrite Heffects, (Hdefault (or_introl eq_refl)). reflexivity.
Defined.

(** C8 at the example settings. *)
Lemma generator_arguments_witness :
  exists rest,
    effects (generate (environment None [])) =
      progress_opened :: analyzing :: launched :: rest
    /\ existsb is_spawn rest = false.
Proof.
  assert (Hkey : js "secret-key" <> []) by discriminate.
  exact (generator_arguments
           CanonicalNumber.number CanonicalNumber.truthy CanonicalNumber.toString
           (js "0.3") (js "100") CanonicalNumber.path_join
           (environment None []) folder [] (js "secret-key")
           eq_refl eq_refl Hkey).
Defined.

(** C10 at settings with an empty interpreter path, no model, and a
    temperature and a token limit of 0. *)
Lemma falsy_settings_witness :
  exists script rest,
    effects (generate (environment None [])) =
      progress_opened :: analyzing ::
      spawn (js "python")
        [ script; js "/home/dev/project";
          js "--api-key"; js "secret-key";
          js "--model"; js "gemini-1.5-flash";
          js "--temperature"; js "0.3";
          js "--max-tokens"; js "100";
          js "--json" ] :: rest.
Proof.
  assert (Hkey : js "secret-key" <> []) by discriminate.
  destruct (falsy_settings_use_defaults
              CanonicalNumber.number CanonicalNumber.truthy CanonicalNumber.toString
              (js "0") (js "0.3") (js "100") CanonicalNumber.path_join
              eq_refl eq_refl eq_refl
              (environment None []) folder [] (js "secret-key")
              eq_refl eq_refl Hkey)
    as (p & script & m & t & mt & rest & Heffects & Hp & Hm & _ & _ & Ht & Hmt).
  rewrite (Hp (or_intror eq_refl)), (Hm (or_introl eq_refl)),
    (Ht eq_refl), (Hmt eq_refl) in Heffects.
  exists script, rest. exact Heffects.
Defined.

(** The example of the specification: the object after the log line is
    extracted and parsed, and reads as the expected Result. *)
Lemma trailing_object_witness :
  runPythonScript (js "python") []
    [stdout_data output_after_log; close (Some 0%Z)] =
    ([spawn (js "python") [];
      JSON_parse (jsq "{'success': true, 'commit_message': 'feat: add parser'}")],
     Normal (parsed_after_log, false))
  /\ as_CommitResult parsed_after_log = Some result_after_log.
Proof.
  split; [|reflexivity].
  refine (trailing_object_is_extracted (js "python") []
            [stdout_data output_after_log] []
            (js "Cloning..." ++ [10%N])
            (tl (jsq "{'success': true, 'commit_message': 'feat: add parser'}"))
            parsed_after_log eq_refl eq_refl _ eq_refl).
  vm_compute. intros H.
  repeat match type of H with
         | _ \/ _ => destruct H as [H|H]; [discriminate H|]
         end.
  exact H.
Defined.

(** A run that resolves: the token's flag is off. *)
Lemma resolved_run_witness :
  runPythonScript (js "python") []
    [stdout_data output_success_only; close (Some 0%Z)] =
    ([spawn (js "python") []; JSON_parse output_success_only],
     Normal (parsed_success_only, false))
  /\ false = false.
Proof.
  split; [reflexivity|].
  exact (resolved_run_was_not_cancelled (js "python") []
           [stdout_data output_success_only; close (Some 0%Z)]
           [spawn (js "python") []; JSON_parse output_success_only]
           parsed_success_only false eq_refl).
Defined.

End ConcreteRuns.

(** ** Properties of the preflight *)

Section PreflightFacts.

Variable number : Type.
Variable path_join : list jsstring -> jsstring.

Local Abbreviation setup := (setupPythonEnvironment path_join).
Local Abbreviation check := (checkPythonSetup path_join).
Local Abbreviation commands := (setup_commands path_join).
Local Abbreviation Env := (Environment number).

(** X4. A setup runs the version check, the installation and the
    verification in this order and stops at the first command that
    fails: the later ones are not run and one error notice carries that
    command's error.  Only when all three succeed is the success notice
    shown, whatever they print on standard error.  A command that never
    settles leaves the setup without any notice.  A setup never throws. *)
Theorem setup_stops_at_first_failure (env : Env) (sh : shell) :
  let r := setup env sh in
  match run_commands 3 sh with
  | all_succeeded rest =>
      executed (actions r) = commands env
      /\ prompts (actions r) =
           [ui (showInformationMessage
                  (js "Python environment setup completed successfully!"))]
      /\ remaining r = rest /\ ending r = Normal tt
  | failed_after k error rest =>
      executed (actions r) = firstn (S k) (commands env)
      /\ prompts (actions r) =
           [ui (showErrorMessage
                  (js "Failed to setup Python environment: " ++ error_message error) [])]
      /\ remaining r = rest /\ ending r = Normal tt
  | unsettled_after k =>
      executed (actions r) = firstn (S k) (commands env)
      /\ prompts (actions r) = []
      /\ ending r = Suspended
  end.
Proof.
  destruct sh as [|[o1 e1|x1] [|[o2 e2|x2] [|[o3 e3|x3] rest]]];
    cbv zeta; repeat split; reflexivity.
Qed.

Lemma setup_never_throws (env : Env) (sh : shell) (e : thrown) :
  ending (setup env sh) <> Throw e.
Proof.
  destruct sh as [|[o1 e1|x1] [|[o2 e2|x2] [|[o3 e3|x3] rest]]]; discriminate.
Qed.

Lemma unusable_interpreter_aux (env : Env) (user : Choices)
    (first : exec_outcome) (rest : shell) :
  (exists error, first = exec_failed error)
  \/ (exists out err, first = exec_ok out err /\ err <> []) ->
  check env user (first :: rest) =
    ([exec (interpreter_probe (configured_python env));
      ui (showErrorMessage
            (js "Python is not available. Please install Python and configure the path in settings.")
            [js "Open Settings"])]
     ++ (if picked (unavailable_choice user) (js "Open Settings")
         then [ui (executeCommand (js "workbench.action.openSettings")
                     (js "autoCommitMessages.pythonPath"))]
         else []),
     rest, Normal tt).
Proof.
  intros [(error & ->)|(out & err & -> & Herr)];
    unfold checkPythonSetup, P_try_catch, P_bind, execAsync; cbn [snd fst].
  - destruct (picked _ _); reflexivity.
  - destruct err as [|c err]; [congruence|]. cbn [truthy throw].
    destruct (picked _ _); reflexivity.
Qed.

Lemma missing_dependencies_offer_setup_aux (env : Env) (user : Choices)
    (out : jsstring) (second : exec_outcome) (rest : shell) :
  check env user (exec_ok out [] :: second :: rest) =
    match second with
    | exec_ok _ _ =>
        ([exec (interpreter_probe (configured_python env));
          exec (dependency_probe (configured_python env))],
         rest, Normal tt)
    | exec_failed _ =>
        let asked :=
          [exec (interpreter_probe (configured_python env));
           exec (dependency_probe (configured_python env));
           showWarningMessage_items
             (js "Python dependencies are not installed. Would you like to install them now?")
             [js "Install Dependencies"; js "Not Now"]] in
        if picked (dependencies_choice user) (js "Install Dependencies")
        then (asked ++ actions (setup env rest),
              remaining (setup env rest), ending (setup env rest))
        else (asked, rest, Normal tt)
    end.
Proof.
  destruct second as [o2 e2|error];
    unfold checkPythonSetup, P_try_catch, P_bind, execAsync; cbn [snd fst truthy].
  - reflexivity.
  - cbn [act P_ret app]. destruct (picked _ _); [|reflexivity].
    pose proof (setup_never_throws env rest) as Hsetup.
    unfold actions, remaining, ending in *.
    destruct (setup env rest) as [[l sh'] c]; cbn [fst snd] in *.
    destruct c; try reflexivity. now elim (Hsetup e).
Qed.

(** X5. When the interpreter probe fails, or succeeds but prints
    anything on standard error, the preflight reports Python as not
    available, offers the settings, and does not run the dependency
    probe; the settings page of the interpreter path is opened only if
    the user picks the button. *)
Theorem unusable_interpreter_is_reported (env : Env) (user : Choices)
    (first : exec_outcome) (rest : shell) :
  (exists error, first = exec_failed error)
  \/ (exists out err, first = exec_ok out err /\ err <> []) ->
  check env user (first :: rest) =
    ([exec (interpreter_probe (configured_python env));
      ui (showErrorMessage
            (js "Python is not available. Please install Python and configure the path in settings.")
            [js "Open Settings"])]
     ++ (if picked (unavailable_choice user) (js "Open Settings")
         then [ui (executeCommand (js "workbench.action.openSettings")
                     (js "autoCommitMessages.pythonPath"))]
         else []),
     rest, Normal tt).
Proof.
  exact (unusable_interpreter_aux env user first rest).
Qed.

(** X6. With a working interpreter (nothing on standard error), the
    preflight is silent when the dependency probe succeeds.  When that
    probe fails it asks whether to install; picking "Install
    Dependencies" runs a setup on what is left of the shell, and any
    other answer ends the preflight at once. *)
Theorem missing_dependencies_offer_setup (env : Env) (user : Choices)
    (out : jsstring) (second : exec_outcome) (rest : shell) :
  check env user (exec_ok out [] :: second :: rest) =
    match second with
    | exec_ok _ _ =>
        ([exec (interpreter_probe (configured_python env));
          exec (dependency_probe (configured_python env))],
         rest, Normal tt)
    | exec_failed _ =>
        let asked :=
          [exec (interpreter_probe (configured_python env));
           exec (dependency_probe (configured_python env));
           showWarningMessage_items
             (js "Python dependencies are not installed. Would you like to install them now?")
             [js "Install Dependencies"; js "Not Now"]] in
        if picked (dependencies_choice user) (js "Install Dependencies")
        then (asked ++ actions (setup env rest),
              remaining (setup env rest), ending (setup env rest))
        else (asked, rest, Normal tt)
    end.
Proof.
  exact (missing_dependencies_offer_setup_aux env user out second rest).
Qed.

Lemma setup_ends (env : Env) (sh : shell) :
  ending (setup env sh) = Normal tt \/ ending (setup env sh) = Suspended.
Proof.
  destruct sh as [|[o1 e1|x1] [|[o2 e2|x2] [|[o3 e3|x3] rest]]]; auto.
Qed.

(** X7. The preflight never throws, whatever the shell and the user
    do: it ends normally, every failure turned into a prompt, or it
    waits for a command that never settles.  The call that [activate]
    leaves unawaited can therefore not end in an unhandled rejection. *)
Theorem preflight_never_throws (env : Env) (user : Choices) (sh : shell) :
  ending (check env user sh) = Normal tt
  \/ ending (check env user sh) = Suspended.
Proof.
  destruct sh as [|[out err|error] sh].
  - right; reflexivity.
  - destruct err as [|c err].
    + destruct sh as [|second rest]; [right; reflexivity|].
      rewrite missing_dependencies_offer_setup_aux.
      destruct second; [left; reflexivity|].
      destruct (picked _ _); [apply setup_ends|left; reflexivity].
    + rewrite (unusable_interpreter_aux env user (exec_ok out (c :: err)) sh)
        by (right; exists out, (c :: err); split; [reflexivity|discriminate]).
      left; reflexivity.
  - rewrite (unusable_interpreter_aux env user (exec_failed error) sh)
      by (left; now exists error).
    left; reflexivity.
Qed.

Lemma actions_triple {A} (l : list action) (sh : shell) (c : completion A) :
  actions (l, sh, c) = l.
Proof. reflexivity. Qed.

Lemma ending_triple {A} (l : list action) (sh : shell) (c : completion A) :
  ending (l, sh, c) = c.
Proof. reflexivity. Qed.

Lemma prompts_app (l l' : list action) : prompts (l ++ l') = prompts l ++ prompts l'.
Proof. apply filter_app. Qed.

Lemma setup_prompts_once (env : Env) (sh : shell) :
  List.length (prompts (actions (setup env sh))) <= 1.
Proof.
  destruct sh as [|[o1 e1|x1] [|[o2 e2|x2] [|[o3 e3|x3] rest]]]; cbn; lia.
Qed.

Lemma check_prompts_twice (env : Env) (user : Choices) (sh : shell) :
  List.length (prompts (actions (check env user sh))) <= 2.
Proof.
  destruct sh as [|[out err|error] sh].
  - cbn; lia.
  - destruct err as [|c err].
    + destruct sh as [|second rest]; [cbn; lia|].
      rewrite missing_dependencies_offer_setup_aux.
      destruct second; [cbn; lia|]. cbv zeta.
      destruct (picked _ _); [|cbn; lia].
      unfold actions at 1. cbn [fst].
      rewrite prompts_app, length_app.
      pose proof (setup_prompts_once env rest) as Hsetup.
      set (n := List.length (prompts (actions (setup env rest)))) in *.
      cbn. lia.
    + rewrite (unusable_interpreter_aux env user (exec_ok out (c :: err)) sh)
        by (right; exists out, (c :: err); split; [reflexivity|discriminate]).
      destruct (picked _ _); cbn; lia.
  - rewrite (unusable_interpreter_aux env user (exec_failed error) sh)
      by (left; now exists error).
    destruct (picked _ _); cbn; lia.
Qed.

(** X16. Activation registers the two commands before the preflight
    runs anything, and ends normally whatever the preflight meets; the
    preflight it starts shows at most two prompts, and none when both
    probes pass. *)
Theorem activation_registers_then_checks (env : Env) (user : Choices) (sh : shell) :
  let r := activate path_join env user sh in
  actions r =
    [console_log [js "Auto Commit Messages (Python) extension is now active"];
     registerCommand (js "autoCommitMessages.generate");
     registerCommand (js "autoCommitMessages.setup");
     subscriptions_push [js "autoCommitMessages.generate"; js "autoCommitMessages.setup"]]
    ++ actions (check env user sh)
  /\ ending r = Normal tt
  /\ List.length (prompts (actions r)) <= 2
  /\ (forall out out' err' rest,
        sh = exec_ok out [] :: exec_ok out' err' :: rest -> prompts (actions r) = []).
Proof.
  cbv zeta.
  assert (E : activate path_join env user sh =
              ([console_log [js "Auto Commit Messages (Python) extension is now active"];
                registerCommand (js "autoCommitMessages.generate");
                registerCommand (js "autoCommitMessages.setup");
                subscriptions_push
                  [js "autoCommitMessages.generate"; js "autoCommitMessages.setup"]]
               ++ actions (check env user sh),
               remaining (check env user sh), Normal tt)).
  { unfold activate, P_bind, act, detached, actions, remaining.
    destruct (check env user sh) as [[l sh'] c]. reflexivity. }
  rewrite E, !actions_triple, ending_triple.
  split; [reflexivity|]. split; [reflexivity|]. split.
  - rewrite prompts_app, length_app.
    pose proof (check_prompts_twice env user sh) as Hcheck.
    set (n := List.length (prompts (actions (check env user sh)))) in *.
    cbn. lia.
  - intros out out' err' rest ->. reflexivity.
Qed.

End PreflightFacts.

(** ** Printed Results through the lexer and the parser *)

Section PrintedResults.

Lemma lex_run_app (s t : jsstring) : forall st,
  lex_run st (s ++ t) =
  match lex_prefix st s with
  | Some st' => lex_run st' t
  | None => None
  end.
Proof.
  induction s as [|c s IH]; intros st; cbn [app lex_run lex_prefix].
  - reflexivity.
  - destruct (lex_step st c) as [st'|]; [apply IH|reflexivity].
Qed.

(** Plain code units are taken over verbatim inside a string literal. *)
Lemma lex_prefix_plain (m : jsstring) : forall acc out,
  plain m = true ->
  lex_prefix (LString acc, out) m = Some (LString (rev m ++ acc), out).
Proof.
  induction m as [|c m IH]; intros acc out Hm; cbn [lex_prefix].
  - reflexivity.
  - cbn [plain forallb] in Hm. apply andb_true_iff in Hm as [Hc Hm].
    unfold plain_char in Hc.
    apply andb_true_iff in Hc as [Hc H32]. apply andb_true_iff in Hc as [H34 H92].
    apply negb_true_iff in H34, H92.
    cbn [lex_step]. rewrite H34, H92.
    replace (N.ltb c 32) with false
      by (symmetry; apply N.ltb_ge; now apply N.leb_le).
    rewrite IH by exact Hm. cbn [rev]. now rewrite <- app_assoc.
Qed.

Lemma not_In_by_eqb (c : N) (s : jsstring) :
  forallb (fun x => negb (N.eqb x c)) s = true -> ~ In c s.
Proof.
  induction s as [|x s IH]; cbn [forallb In]; intros H Hin.
  - exact Hin.
  - apply andb_true_iff in H as [Hx H]. destruct Hin as [->|Hin].
    + now rewrite N.eqb_refl in Hx.
    + now apply IH.
Qed.

(** A printed success Result parses to the object it shows. *)
Lemma parse_printed_success (message : jsstring) :
  plain message = true ->
  JSON.parse (printed_success message) =
    Some (JObject [(js "success", JBool true);
                   (js "commit_message", JString message)]).
Proof.
  intros Hm. unfold JSON.parse, lex, printed_success.
  rewrite lex_run_app.
  replace (lex_prefix (LDefault, []) (jsq "{'success': true, 'commit_message': '"))
    with (Some (LString [],
                [TColon; TString (js "commit_message"); TComma; TTrue; TColon;
                 TString (js "success"); TLBrace]))
    by (vm_compute; reflexivity).
  rewrite lex_run_app, lex_prefix_plain by exact Hm.
  cbn [lex_run jsq js map list_ascii_of_string lex_step lex_finish].
  cbn. rewrite app_nil_r, rev_involutive. reflexivity.
Qed.

Lemma parse_printed_failure (text : jsstring) :
  plain text = true ->
  JSON.parse (printed_failure text) =
    Some (JObject [(js "success", JBool false); (js "error", JString text)]).
Proof.
  intros Hm. unfold JSON.parse, lex, printed_failure.
  rewrite lex_run_app.
  replace (lex_prefix (LDefault, []) (jsq "{'success': false, 'error': '"))
    with (Some (LString [],
                [TColon; TString (js "error"); TComma; TFalse; TColon;
                 TString (js "success"); TLBrace]))
    by (vm_compute; reflexivity).
  rewrite lex_run_app, lex_prefix_plain by exact Hm.
  cbn. rewrite app_nil_r, rev_involutive. reflexivity.
Qed.

Lemma lex_default_outside (c : N) (out : list token) (st' : lex_state) :
  N.eqb c 34 = false -> lex_default c out = Some st' -> outside_string st' = true.
Proof.
  intros Hc. unfold lex_default. rewrite Hc.
  repeat match goal with
         | |- context [if ?b then _ else _] => destruct b
         end; intros H; inversion H; reflexivity.
Qed.

(** Outside a string literal, only a double quote opens one. *)
Lemma outside_step (st st' : lex_state) (c : N) :
  outside_string st = true -> N.eqb c 34 = false ->
  lex_step st c = Some st' -> outside_string st' = true.
Proof.
  destruct st as [mode out]. intros Hout Hc.
  destruct mode; try discriminate Hout; cbn [lex_step].
  - apply lex_default_outside. exact Hc.
  - destruct (is_number_char c); [intros H; inversion H; reflexivity|].
    destruct (number_token (rev acc)); [|discriminate].
    apply lex_default_outside. exact Hc.
  - destruct (is_letter c); [intros H; inversion H; reflexivity|].
    destruct (word_token (rev acc)); [|discriminate].
    apply lex_default_outside. exact Hc.
Qed.

(** A double quote and a closing brace at the end of the text, met
    outside a string literal, leave a literal open. *)
Lemma lex_quote_then_brace (st : lex_state) :
  outside_string st = true -> lex_run st [34%N; 125%N] = None.
Proof.
  destruct st as [mode out]. intros Hout.
  destruct mode; try discriminate Hout; cbn [lex_run lex_step].
  - reflexivity.
  - change (is_number_char 34) with false. cbv iota.
    destruct (number_token (rev acc)); reflexivity.
  - change (is_letter 34) with false. cbv iota.
    destruct (word_token (rev acc)); reflexivity.
Qed.

Lemma lex_unclosed (b : jsstring) : forall st,
  outside_string st = true -> ~ In 34%N b ->
  lex_run st (b ++ [34%N; 125%N]) = None.
Proof.
  induction b as [|c b IH]; intros st Hout Hb.
  - now apply lex_quote_then_brace.
  - cbn [app lex_run]. destruct (lex_step st c) as [st'|] eqn:E; [|reflexivity].
    apply IH.
    + apply (outside_step st st' c Hout); [|exact E].
      apply N.eqb_neq. intros ->. apply Hb. now left.
    + intros Hin. apply Hb. now right.
Qed.

(** The text from a brace inside a printed string on is no JSON. *)
Lemma parse_from_inner_brace (b : jsstring) :
  ~ In 34%N b -> JSON.parse (123%N :: b ++ jsq "'}") = None.
Proof.
  intros Hb. unfold JSON.parse, lex.
  change (lex_run (LDefault, []) (123%N :: b ++ jsq "'}"))
    with (lex_run (LDefault, [TLBrace]) (b ++ [34%N; 125%N])).
  now rewrite lex_unclosed.
Qed.

Lemma plain_no_quote (s : jsstring) : plain s = true -> ~ In 34%N s.
Proof.
  induction s as [|c s IH]; cbn [plain forallb In]; intros H Hin.
  - exact Hin.
  - apply andb_true_iff in H as [Hc H]. destruct Hin as [->|Hin].
    + discriminate Hc.
    + now apply IH.
Qed.

Lemma plain_app (a b : jsstring) :
  plain (a ++ b) = plain a && plain b.
Proof. apply forallb_app. Qed.

(** The last occurrence of a code unit. *)
Lemma last_occurrence (c : N) (s : jsstring) :
  In c s -> exists a b, s = a ++ c :: b /\ ~ In c b.
Proof.
  induction s as [|x s IH]; intros Hin.
  - destruct Hin.
  - destruct (in_dec N.eq_dec c s) as [Hs|Hs].
    + destruct (IH Hs) as (a & b & -> & Hb). now exists (x :: a), b.
    + destruct Hin as [->|Hin]; [|contradiction]. now exists [], s.
Qed.

End PrintedResults.

(** ** More properties of an invocation *)

Section InvocationFacts.

Variable number : Type.
Variable number_truthy : number -> bool.
Variable number_toString : number -> jsstring.
Variables num_0_3 num_100 : number.
Variable path_join : list jsstring -> jsstring.

Local Abbreviation generate :=
  (generateCommitMessage number_truthy number_toString num_0_3 num_100 path_join).
Local Abbreviation command := (@spawn_command number).
Local Abbreviation arguments :=
  (spawn_args number_truthy number_toString num_0_3 num_100 path_join).
Local Abbreviation Env := (Environment number).
Local Abbreviation route := (@after_run number).
Local Abbreviation with_key :=
  (generate_with_key number number_truthy number_toString num_0_3 num_100 path_join).
Local Abbreviation parsed :=
  (generate_parsed number number_truthy number_toString num_0_3 num_100 path_join).
Local Abbreviation launch :=
  (generate_launch number number_truthy number_toString num_0_3 num_100 path_join).

Lemma filter_none {A} (f : A -> bool) (l : list A) :
  existsb f l = false -> filter f l = [].
Proof.
  induction l as [|x l IH]; cbn [existsb filter]; intros H.
  - reflexivity.
  - apply orb_false_iff in H as [Hx Hl]. rewrite Hx. now apply IH.
Qed.







(** A run whose process cannot be started. *)
Lemma run_spawn_error (pythonPath : jsstring) (args : list jsstring)
    (data later : list event) (message : jsstring) :
  data_only data = true ->
  runPythonScript pythonPath args (data ++ spawn_error message :: later) =
  ([spawn pythonPath args],
   Throw (Error (js "Failed to start Python script: " ++ message))).
Proof.
  intros Hd. unfold runPythonScript. rewrite await_initial_data by assumption.
  cbn [await promise handle]. cbn.
  rewrite await_settled by (cbn; discriminate). reflexivity.
Qed.

(** A run whose process only ever prints. *)
Lemma run_pending (pythonPath : jsstring) (args : list jsstring)
    (events : list event) :
  data_only events = true ->
  runPythonScript pythonPath args events = ([spawn pythonPath args], Suspended).
Proof.
  intros Hd. unfold runPythonScript.
  pose proof (await_initial_data events [] Hd) as E.
  rewrite app_nil_r, await_nil in E. rewrite E. reflexivity.
Qed.

(** X8. An invocation launches at most one process, and launches one
    exactly when a workspace folder is open and the API key is a
    non-empty string. *)
Theorem launches_at_most_once (env : Env) :
  launches (effects (generate env)) =
    match workspaceFolders env, present (googleApiKey (configuration env)) with
    | Some (wf :: _), Some key => [spawn (command env) (arguments env wf key)]
    | _, _ => []
    end.
Proof.
  destruct (workspaceFolders env) as [[|wf wfs]|] eqn:Hwf.
  - unfold generateCommitMessage. rewrite Hwf. reflexivity.
  - destruct (present (googleApiKey (configuration env))) as [key|] eqn:Hkey.
    + apply present_inv in Hkey as [Hkey Hne].
      destruct (launch env wf wfs key Hwf Hkey Hne) as (rest & -> & Hrest).
      unfold launches. cbn [filter is_spawn progress_opened analyzing].
      now rewrite (filter_none _ _ Hrest).
    + unfold generateCommitMessage. rewrite Hwf, Hkey.
      destruct (picked_item env) as [item|];
        [destruct (jsstring_eqb item (js "Open Settings"))|]; reflexivity.
  - unfold generateCommitMessage. rewrite Hwf. reflexivity.
Qed.


(** X10. When the interpreter cannot be started, the invocation ends
    with one error notice that carries the system's message; nothing is
    parsed. *)
Theorem spawn_error_is_reported (env : Env) (wf : WorkspaceFolder)
    (wfs : list WorkspaceFolder) (key : jsstring) (data later : list event)
    (message : jsstring) :
  workspaceFolders env = Some (wf :: wfs) ->
  googleApiKey (configuration env) = Some key -> key <> [] ->
  process_events env = data ++ spawn_error message :: later ->
  data_only data = true ->
  generate env =
    ([progress_opened; analyzing;
      spawn (command env) (arguments env wf key);
      console_error (js "Error in generateCommitMessage:")
        (Error (js "Failed to start Python script: " ++ message));
      showErrorMessage
        (js "Failed to generate commit message: "
           ++ js "Failed to start Python script: " ++ message) []],
     Normal tt).
Proof.
  intros Hwf Hkey Hne Hev Hd.
  assert (Hrun := run_spawn_error (command env) (arguments env wf key)
                    data later message Hd).
  rewrite <- Hev in Hrun.
  now rewrite (with_key env wf wfs key Hwf Hkey Hne _ _ Hrun).
Qed.

(** X11. There is no timeout: while the process only prints, neither
    exits nor fails to start, and the user does not cancel, the
    invocation stays suspended after the launch and shows no notice. *)
Theorem silent_process_suspends (env : Env) (wf : WorkspaceFolder)
    (wfs : list WorkspaceFolder) (key : jsstring) :
  workspaceFolders env = Some (wf :: wfs) ->
  googleApiKey (configuration env) = Some key -> key <> [] ->
  data_only (process_events env) = true ->
  generate env =
    ([progress_opened; analyzing; spawn (command env) (arguments env wf key)],
     Suspended).
Proof.
  intros Hwf Hkey Hne Hd.
  assert (Hrun := run_pending (command env) (arguments env wf key)
                    (process_events env) Hd).
  now rewrite (with_key env wf wfs key Hwf Hkey Hne _ _ Hrun).
Qed.

(** The text the controller extracts from a printed Result that follows
    any other output, when the printed string holds no opening brace. *)
Lemma jsonPart_printed_success (pre message : jsstring) :
  ~ In 123%N message ->
  jsonPart (pre ++ printed_success message) = printed_success message.
Proof.
  intros Hm.
  change (printed_success message)
    with (123%N :: (tl (jsq "{'success': true, 'commit_message': '")
                    ++ message ++ jsq "'}")).
  apply jsonPart_last_brace.
  intros Hin. apply in_app_or in Hin as [Hin|Hin].
  - revert Hin. apply not_In_by_eqb. reflexivity.
  - apply in_app_or in Hin as [Hin|Hin]; [now apply Hm|].
    revert Hin. apply not_In_by_eqb. reflexivity.
Qed.

Lemma jsonPart_printed_failure (pre text : jsstring) :
  ~ In 123%N text ->
  jsonPart (pre ++ printed_failure text) = printed_failure text.
Proof.
  intros Hm.
  change (printed_failure text)
    with (123%N :: (tl (jsq "{'success': false, 'error': '")
                    ++ text ++ jsq "'}")).
  apply jsonPart_last_brace.
  intros Hin. apply in_app_or in Hin as [Hin|Hin].
  - revert Hin. apply not_In_by_eqb. reflexivity.
  - apply in_app_or in Hin as [Hin|Hin]; [now apply Hm|].
    revert Hin. apply not_In_by_eqb. reflexivity.
Qed.

(** X12. Round trip of a commit message: when the process prints, after
    any other output, a success Result whose message is a non-empty
    string of plain characters without an opening brace, and exits with
    status zero, exactly that message reaches the input box of the
    first repository, or the clipboard when there is none. *)
Theorem plain_message_is_applied (env : Env) (wf : WorkspaceFolder)
    (wfs : list WorkspaceFolder) (key : jsstring) (data later : list event)
    (pre message : jsstring) :
  workspaceFolders env = Some (wf :: wfs) ->
  googleApiKey (configuration env) = Some key -> key <> [] ->
  process_events env = data ++ close (Some 0%Z) :: later ->
  data_only data = true ->
  captured_stdout data = pre ++ printed_success message ->
  plain message = true -> ~ In 123%N message -> message <> [] ->
  generate env =
    ([progress_opened; analyzing;
      spawn (command env) (arguments env wf key);
      JSON_parse (printed_success message);
      processing; applying] ++
     match git env with
     | Some (repo :: _) =>
         [inputBox_value_set repo message;
          showInformationMessage (js "Generated: " ++ quoted message)]
     | _ =>
         [clipboard_writeText message;
          showInformationMessage
            (js "Generated (copied to clipboard): " ++ quoted message)]
     end,
     Normal tt).
Proof.
  intros Hwf Hkey Hne Hev Hd Hout Hplain Hbrace Hmne.
  assert (Hpart : jsonPart (captured_stdout data) = printed_success message)
    by (rewrite Hout; now apply jsonPart_printed_success).
  rewrite (parsed env wf wfs key data later
             (JObject [(js "success", JBool true);
                       (js "commit_message", JString message)])
             {| commit_message := Some message; success := true; error := None |}
             Hwf Hkey Hne Hev Hd);
    [| rewrite Hpart; now apply parse_printed_success | reflexivity].
  rewrite Hpart. cbn [success commit_message].
  rewrite (present_some message Hmne). cbn zeta.
  unfold apply_commit_message.
  destruct (git env) as [[|repo repos]|]; reflexivity.
Qed.

(** X13. The same Result with an opening brace anywhere in a message of
    plain characters is always refused: the text from the last brace on
    is handed to the parser, which leaves a string literal open, and
    the invocation ends with the parse-failure notice. *)
Theorem message_with_brace_is_rejected (env : Env) (wf : WorkspaceFolder)
    (wfs : list WorkspaceFolder) (key : jsstring) (data later : list event)
    (pre message : jsstring) :
  workspaceFolders env = Some (wf :: wfs) ->
  googleApiKey (configuration env) = Some key -> key <> [] ->
  process_events env = data ++ close (Some 0%Z) :: later ->
  data_only data = true ->
  captured_stdout data = pre ++ printed_success message ->
  plain message = true -> In 123%N message ->
  JSON.parse (printed_success message) =
    Some (JObject [(js "success", JBool true);
                   (js "commit_message", JString message)])
  /\ generate env =
       ([progress_opened; analyzing;
         spawn (command env) (arguments env wf key);
         JSON_parse (jsonPart (pre ++ printed_success message));
         console_error (js "Error in generateCommitMessage:")
           (Error (js "Failed to parse Python script output: "
                     ++ pre ++ printed_success message));
         showErrorMessage
           (js "Failed to generate commit message: "
              ++ js "Failed to parse Python script output: "
              ++ pre ++ printed_success message) []],
        Normal tt).
Proof.
  intros Hwf Hkey Hne Hev Hd Hout Hplain Hbrace.
  split; [now apply parse_printed_success|].
  destruct (last_occurrence 123%N message Hbrace) as (a & b & Hm & Hb).
  assert (Hbplain : plain b = true).
  { rewrite Hm, plain_app in Hplain. apply andb_true_iff in Hplain as [_ Hp].
    cbn [plain forallb] in Hp. now apply andb_true_iff in Hp as [_ Hp]. }
  assert (Hpart : jsonPart (pre ++ printed_success message)
                  = 123%N :: b ++ jsq "'}").
  { assert (E : pre ++ printed_success message =
                (pre ++ jsq "{'success': true, 'commit_message': '" ++ a)
                  ++ 123%N :: (b ++ jsq "'}")).
    { rewrite Hm. unfold printed_success. now rewrite <- !app_assoc. }
    transitivity (jsonPart ((pre ++ jsq "{'success': true, 'commit_message': '" ++ a)
                              ++ 123%N :: (b ++ jsq "'}")));
      [f_equal; exact E|].
    apply jsonPart_last_brace.
    intros Hin. apply in_app_or in Hin as [Hin|Hin]; [now apply Hb|].
    revert Hin. apply not_In_by_eqb. reflexivity. }
  assert (Hparse : JSON.parse (jsonPart (captured_stdout data)) = None).
  { rewrite Hout, Hpart. apply parse_from_inner_brace.
    now apply plain_no_quote. }
  assert (Hrun := run_exit_zero (command env) (arguments env wf key) data later Hd).
  rewrite <- Hev, Hparse, Hout in Hrun.
  now rewrite (with_key env wf wfs key Hwf Hkey Hne _ _ Hrun).
Qed.

(** X14. A printed failure Result with a non-empty error text of plain
    characters without an opening brace gives the warning when the text
    contains "No changes detected" anywhere, and otherwise an error
    notice that quotes the text in full. *)
Theorem printed_failure_is_reported (env : Env) (wf : WorkspaceFolder)
    (wfs : list WorkspaceFolder) (key : jsstring) (data later : list event)
    (pre text : jsstring) :
  workspaceFolders env = Some (wf :: wfs) ->
  googleApiKey (configuration env) = Some key -> key <> [] ->
  process_events env = data ++ close (Some 0%Z) :: later ->
  data_only data = true ->
  captured_stdout data = pre ++ printed_failure text ->
  plain text = true -> ~ In 123%N text -> text <> [] ->
  ((exists before after, text = before ++ js "No changes detected" ++ after) ->
   generate env =
     ([progress_opened; analyzing;
       spawn (command env) (arguments env wf key);
       JSON_parse (printed_failure text); processing;
       showWarningMessage (js "No changes detected to generate commit message.")],
      Normal tt))
  /\ (~ (exists before after, text = before ++ js "No changes detected" ++ after) ->
      generate env =
        ([progress_opened; analyzing;
          spawn (command env) (arguments env wf key);
          JSON_parse (printed_failure text); processing;
          showErrorMessage (js "Error: " ++ text) []],
         Normal tt)).
Proof.
  intros Hwf Hkey Hne Hev Hd Hout Hplain Hbrace Htne.
  assert (Hpart : jsonPart (captured_stdout data) = printed_failure text)
    by (rewrite Hout; now apply jsonPart_printed_failure).
  assert (Hgen := parsed env wf wfs key data later
             (JObject [(js "success", JBool false); (js "error", JString text)])
             {| commit_message := None; success := false; error := Some text |}
             Hwf Hkey Hne Hev Hd).
  rewrite Hpart in Hgen.
  specialize (Hgen (parse_printed_failure text Hplain) eq_refl).
  cbn [success commit_message] in Hgen. cbn zeta in Hgen.
  unfold report_failure in Hgen. cbn [error] in Hgen.
  assert (Hdefault : or_default (Some text) (js "Failed to generate commit message") = text).
  { destruct text; [congruence|reflexivity]. }
  rewrite Hdefault in Hgen.
  split; intros Hsub.
  - apply includes_spec in Hsub. rewrite Hsub in Hgen. exact Hgen.
  - destruct (includes (js "No changes detected") text) eqn:E.
    + exfalso. apply Hsub. now apply includes_spec.
    + exact Hgen.
Qed.

End InvocationFacts.


(** ** More concrete runs *)

Section MoreConcreteRuns.

Import Examples.

(** X5 at an interpreter that works but warns: reported as not
    available, the second probe never run. *)
Lemma unusable_interpreter_witness :
  PreflightExamples.check PreflightExamples.environment
    PreflightExamples.agreeing_user
    [PreflightExamples.warning_interpreter; exec_ok [] []] =
    ([exec (js "python -c " ++ quoted (js "import sys; print(sys.version)"));
      ui (showErrorMessage
            (js "Python is not available. Please install Python and configure the path in settings.")
            [js "Open Settings"]);
      ui (executeCommand (js "workbench.action.openSettings")
            (js "autoCommitMessages.pythonPath"))],
     [exec_ok [] []], Normal tt).
Proof.
  assert (Herr : js "DeprecationWarning: old option" <> []) by discriminate.
  exact (unusable_interpreter_is_reported
           CanonicalNumber.number CanonicalNumber.path_join
           PreflightExamples.environment PreflightExamples.agreeing_user
           PreflightExamples.warning_interpreter [exec_ok [] []]
           (or_intror
              (ex_intro _ (js "3.12.1")
                 (ex_intro _ (js "DeprecationWarning: old option")
                    (conj eq_refl Herr))))).
Defined.

(** X10 at a missing interpreter. *)
Lemma spawn_error_witness :
  generate (environment None [spawn_error (js "spawn python ENOENT")]) =
    ([progress_opened; analyzing; launched;
      console_error (js "Error in generateCommitMessage:")
        (Error (js "Failed to start Python script: spawn python ENOENT"));
      showErrorMessage
        (js "Failed to generate commit message: Failed to start Python script: spawn python ENOENT")
        []],
     Normal tt).
Proof.
  assert (Hkey : js "secret-key" <> []) by discriminate.
  exact (spawn_error_is_reported
           CanonicalNumber.number CanonicalNumber.truthy CanonicalNumber.toString
           (js "0.3") (js "100") CanonicalNumber.path_join
           (environment None [spawn_error (js "spawn python ENOENT")])
           folder [] (js "secret-key") [] [] (js "spawn python ENOENT")
           eq_refl eq_refl Hkey eq_refl eq_refl).
Defined.

(** X11 at a process that prints and goes on. *)
Lemma silent_process_witness :
  generate (environment None [stdout_data (js "thinking"); stderr_data (js "...")]) =
    ([progress_opened; analyzing; launched], Suspended).
Proof.
  assert (Hkey : js "secret-key" <> []) by discriminate.
  exact (silent_process_suspends
           CanonicalNumber.number CanonicalNumber.truthy CanonicalNumber.toString
           (js "0.3") (js "100") CanonicalNumber.path_join
           (environment None [stdout_data (js "thinking"); stderr_data (js "...")])
           folder [] (js "secret-key")
           eq_refl eq_refl Hkey eq_refl).
Defined.

(** X12 at the message of the specification's example, after a log
    line. *)
Lemma plain_message_witness :
  generate (environment (Some [repository])
              [stdout_data output_after_log; close (Some 0%Z)]) =
    ([progress_opened; analyzing; launched;
      JSON_parse (printed_success (js "feat: add parser"));
      processing; applying;
      inputBox_value_set repository (js "feat: add parser");
      showInformationMessage (js "Generated: " ++ quoted (js "feat: add parser"))],
     Normal tt).
Proof.
  assert (Hkey : js "secret-key" <> []) by discriminate.
  assert (Hmessage : js "feat: add parser" <> []) by discriminate.
  assert (Hbrace : ~ In 123%N (js "feat: add parser"))
    by (apply not_In_by_eqb; reflexivity).
  exact (plain_message_is_applied
           CanonicalNumber.number CanonicalNumber.truthy CanonicalNumber.toString
           (js "0.3") (js "100") CanonicalNumber.path_join
           (environment (Some [repository])
              [stdout_data output_after_log; close (Some 0%Z)])
           folder [] (js "secret-key") [stdout_data output_after_log] []
           (js "Cloning..." ++ [10%N]) (js "feat: add parser")
           eq_refl eq_refl Hkey eq_refl eq_refl eq_refl eq_refl Hbrace Hmessage).
Defined.

(** X13 at a message that names a brace. *)
Lemma message_with_brace_witness :
  generate (environment (Some [repository])
              [stdout_data output_with_brace; close (Some 0%Z)]) =
    ([progress_opened; analyzing; launched;
      JSON_parse (jsq "{ in templates'}");
      console_error (js "Error in generateCommitMessage:")
        (Error (js "Failed to parse Python script output: " ++ output_with_brace));
      showErrorMessage
        (js "Failed to generate commit message: "
           ++ js "Failed to parse Python script output: " ++ output_with_brace) []],
     Normal tt).
Proof.
  assert (Hkey : js "secret-key" <> []) by discriminate.
  assert (Hbrace : In 123%N (js "fix: escape { in templates")).
  { do 12 right. left. reflexivity. }
  exact (proj2
    (message_with_brace_is_rejected
       CanonicalNumber.number CanonicalNumber.truthy CanonicalNumber.toString
       (js "0.3") (js "100") CanonicalNumber.path_join
       (environment (Some [repository])
          [stdout_data output_with_brace; close (Some 0%Z)])
       folder [] (js "secret-key") [stdout_data output_with_brace] []
       [] (js "fix: escape { in templates")
       eq_refl eq_refl Hkey eq_refl eq_refl eq_refl eq_refl Hbrace)).
Defined.

(** X14 at the failure of the specification's example (a warning) and
    at another failure text (an error). *)
Lemma printed_failure_witness :
  generate (environment (Some [repository])
              [stdout_data output_no_changes; close (Some 0%Z)]) =
    ([progress_opened; analyzing; launched; JSON_parse output_no_changes; processing;
      showWarningMessage (js "No changes detected to generate commit message.")],
     Normal tt)
  /\ generate (environment (Some [repository])
                 [stdout_data (printed_failure (js "quota exceeded"));
                  close (Some 0%Z)]) =
       ([progress_opened; analyzing; launched;
         JSON_parse (printed_failure (js "quota exceeded")); processing;
         showErrorMessage (js "Error: quota exceeded") []],
        Normal tt).
Proof.
  assert (Hkey : js "secret-key" <> []) by discriminate.
  assert (Htext : js "No changes detected in repository" <> []) by discriminate.
  assert (Hquota : js "quota exceeded" <> []) by discriminate.
  assert (Hbrace : ~ In 123%N (js "No changes detected in repository"))
    by (apply not_In_by_eqb; reflexivity).
  assert (Hbrace' : ~ In 123%N (js "quota exceeded"))
    by (apply not_In_by_eqb; reflexivity).
  assert (Hsub : exists before after,
             js "No changes detected in repository"
             = before ++ js "No changes detected" ++ after)
    by (exists [], (js " in repository"); reflexivity).
  assert (Hnot : ~ (exists before after,
             js "quota exceeded" = before ++ js "No changes detected" ++ after))
    by (intros H; apply includes_spec in H; discriminate H).
  split.
  - exact (proj1
      (printed_failure_is_reported
         CanonicalNumber.number CanonicalNumber.truthy CanonicalNumber.toString
         (js "0.3") (js "100") CanonicalNumber.path_join
         (environment (Some [repository])
            [stdout_data output_no_changes; close (Some 0%Z)])
         folder [] (js "secret-key") [stdout_data output_no_changes] []
         [] (js "No changes detected in repository")
         eq_refl eq_refl Hkey eq_refl eq_refl eq_refl eq_refl Hbrace Htext) Hsub).
  - exact (proj2
      (printed_failure_is_reported
         CanonicalNumber.number CanonicalNumber.truthy CanonicalNumber.toString
         (js "0.3") (js "100") CanonicalNumber.path_join
         (environment (Some [repository])
            [stdout_data (printed_failure (js "quota exceeded")); close (Some 0%Z)])
         folder [] (js "secret-key")
         [stdout_data (printed_failure (js "quota exceeded"))] []
         [] (js "quota exceeded")
         eq_refl eq_refl Hkey eq_refl eq_refl eq_refl eq_refl Hbrace' Hquota) Hnot).
Defined.


End MoreConcreteRuns.
